(** * Property listings: cache-aside reads and signal-driven invalidation

    A shallow embedding of the [properties] Django application
    ([utils.py], [signals.py], [views.py]) together with the statements
    its specification makes about it.

    The application keeps one entry, under the key ['all_properties'], in a
    Redis-backed cache in front of the [Property] table.  The embedding
    threads an explicit [World] (table, cache, clock, logger output)
    through every call; a Python exception is a second kind of outcome. *)

From Stdlib Require Import ZArith NArith String Ascii List Lia.
From Corelib Require Import SpecFloat.
From stdpp Require Import base decidable option list sorting strings pretty gmap.

Local Open Scope string_scope.
Local Open Scope Z_scope.

(* ===================================================================== *)
(** * Python values used by the application *)
(* ===================================================================== *)

(** ** Text *)

(** [str(n)] for a Python [int]. *)
Definition str_int (n : Z) : string := pretty n.

(** ['0' * k]. *)
Fixpoint zeros (k : nat) : string :=
  match k with
  | O => ""
  | S k' => String "0" (zeros k')
  end.

(** [s.rjust(width, '0')], the padding of ["%0<width>d"] on a number that
    is not negative: digits are never cut off. *)
Definition zfill (width : nat) (s : string) : string :=
  zeros (width - String.length s) +:+ s.

(** ["%0<width>d" % n] for [n >= 0]. *)
Definition fmt_0d (width : nat) (n : N) : string := zfill width (pretty n).

(** [s[:k]] and [s[k:]]. *)
Fixpoint str_take (k : nat) (s : string) : string :=
  match k, s with
  | S k', String c s' => String c (str_take k' s')
  | _, _ => ""
  end.

Fixpoint str_drop (k : nat) (s : string) : string :=
  match k, s with
  | S k', String _ s' => str_drop k' s'
  | _, _ => s
  end.

(** ["%+d" % n]. *)
Definition fmt_signed (n : Z) : string :=
  if 0 <=? n then "+" +:+ pretty n else pretty n.

(** The [k] lowest decimal digits of [n], the most significant first:
    the numeral of [n mod 10^k] on exactly [k] positions. *)
Fixpoint digits (k : nat) (n : N) : string :=
  match k with
  | O => ""
  | S k' =>
      digits k' (n `div` 10)%N +:+ String (pretty_N_char (n `mod` 10)%N) ""
  end.

(** ** [datetime.datetime] *)

(** The fields of a [datetime]; [dt_utc] tells an aware value whose
    [tzinfo] is UTC (what Django loads when [USE_TZ] is on) from a naive
    one. *)
Record datetime := mk_datetime {
  dt_year : N;
  dt_month : N;
  dt_day : N;
  dt_hour : N;
  dt_minute : N;
  dt_second : N;
  dt_microsecond : N;
  dt_utc : bool
}.

(** [datetime.isoformat()] with the default separator and
    [timespec='auto']: the fraction is printed only when it is not zero and
    the offset only for an aware value. *)
Definition isoformat (d : datetime) : string :=
  fmt_0d 4 (dt_year d) +:+ "-" +:+ fmt_0d 2 (dt_month d) +:+ "-" +:+
  fmt_0d 2 (dt_day d) +:+ "T" +:+
  fmt_0d 2 (dt_hour d) +:+ ":" +:+ fmt_0d 2 (dt_minute d) +:+ ":" +:+
  fmt_0d 2 (dt_second d) +:+
  (if (dt_microsecond d =? 0)%N then "" else "." +:+ fmt_0d 6 (dt_microsecond d)) +:+
  (if dt_utc d then "+00:00" else "").

(** Chronological comparison: the fields, most significant first. *)
Definition dt_fields (d : datetime) : list N :=
  [dt_year d; dt_month d; dt_day d; dt_hour d; dt_minute d; dt_second d;
   dt_microsecond d].

Fixpoint lex_compare (xs ys : list N) : comparison :=
  match xs, ys with
  | [], [] => Eq
  | [], _ :: _ => Lt
  | _ :: _, [] => Gt
  | x :: xs', y :: ys' =>
      match (x ?= y)%N with
      | Eq => lex_compare xs' ys'
      | c => c
      end
  end.

Definition dt_compare (a b : datetime) : comparison :=
  lex_compare (dt_fields a) (dt_fields b).

Definition dt_leb (a b : datetime) : bool :=
  match dt_compare a b with Gt => false | _ => true end.

Definition dt_ltb (a b : datetime) : bool :=
  match dt_compare a b with Lt => true | _ => false end.

(** The ranges the constructor of [datetime] accepts. *)
Definition dt_valid (d : datetime) : Prop :=
  (1 <= dt_year d <= 9999)%N /\ (1 <= dt_month d <= 12)%N /\
  (1 <= dt_day d <= 31)%N /\ (dt_hour d < 24)%N /\ (dt_minute d < 60)%N /\
  (dt_second d < 60)%N /\ (dt_microsecond d < 1000000)%N.

(** ** [decimal.Decimal] *)

(** A finite [Decimal]: sign, coefficient and exponent, the value being
    [(-1)^sign * coefficient * 10^exponent].  Python keeps the
    coefficient as its digit string [_int]. *)
Record Decimal := mk_Decimal {
  dec_sign : bool;
  dec_coeff : N;
  dec_exp : Z
}.

(** [str(d)], the scientific string of the General Decimal Arithmetic
    specification: plain notation when the exponent is at most 0 and the
    number is not too small, an [E] exponent otherwise. *)
Definition str_Decimal (d : Decimal) : string :=
  let sign := if dec_sign d then "-" else "" in
  let int_ := pretty (dec_coeff d) in
  let len := Z.of_nat (String.length int_) in
  let leftdigits := dec_exp d + len in
  let dotplace :=
    if (dec_exp d <=? 0) && (-6 <? leftdigits) then leftdigits else 1 in
  let intpart :=
    if dotplace <=? 0 then "0"
    else if len <=? dotplace then int_ +:+ zeros (Z.to_nat (dotplace - len))
    else str_take (Z.to_nat dotplace) int_ in
  let fracpart :=
    if dotplace <=? 0 then "." +:+ zeros (Z.to_nat (- dotplace)) +:+ int_
    else if len <=? dotplace then ""
    else "." +:+ str_drop (Z.to_nat dotplace) int_ in
  let exp :=
    if leftdigits =? dotplace then ""
    else "E" +:+ fmt_signed (leftdigits - dotplace) in
  sign +:+ intpart +:+ fracpart +:+ exp.

(** ** The [Property] model *)

(** Modelled from the spec: [models.py] is not among the sources.  The
    fields are those of the data model (id, title, description, price,
    location, created_at) and the ones [views.py] reads. *)
Module Property.
Record t := mk {
  id : Z;
  title : string;
  description : string;
  price : Decimal;
  location : string;
  created_at : datetime
}.
End Property.

#[global] Instance datetime_eq_dec : EqDecision datetime.
Proof. solve_decision. Defined.
#[global] Instance Decimal_eq_dec : EqDecision Decimal.
Proof. solve_decision. Defined.
#[global] Instance Property_eq_dec : EqDecision Property.t.
Proof. solve_decision. Defined.

(** ** Exceptions *)

(** The exceptions that can arise in the modelled code: the cache client's
    [ConnectionError] and the two arithmetic errors of [int / int]. *)
Inductive Exception :=
  | ConnectionError (msg : string)
  | ZeroDivisionError (msg : string)
  | OverflowError (msg : string).

(** [str(e)]. *)
Definition str_exc (e : Exception) : string :=
  match e with
  | ConnectionError msg | ZeroDivisionError msg | OverflowError msg => msg
  end.

(** The result of an expression that may raise. *)
Inductive result (A : Type) :=
  | Ok (a : A)
  | Err (e : Exception).
Arguments Ok {A} a.
Arguments Err {A} e.

(** ** [float]: IEEE 754 binary64, round to nearest, ties to even *)

Definition prec : Z := 53.
Definition emax : Z := 1024.

Abbreviation float := spec_float.

(** [float(n)]. *)
Definition float_of_int (n : Z) : float := binary_normalize prec emax n 0 false.

(** The integer as an unrounded significand with exponent 0. *)
Definition int_as_float (n : Z) (zero_sign : bool) : float :=
  match n with
  | Z0 => S754_zero zero_sign
  | Zpos p => S754_finite false p 0
  | Zneg p => S754_finite true p 0
  end.

(** The largest magnitude a quotient may have before it rounds to an
    infinity: half an ulp above the largest finite double. *)
Definition overflow_threshold : Z := 2 ^ 1024 - 2 ^ 970.

(** The quotient of two integers rounded once to a double. *)
Definition quotient (a b : Z) : float :=
  SFdiv prec emax (int_as_float a false) (int_as_float b false).

(** [a / b] on two [int]s: the correctly rounded quotient, or the error
    Python raises when there is none. *)
Definition int_truediv (a b : Z) : result float :=
  if b =? 0 then Err (ZeroDivisionError "division by zero")
  else if overflow_threshold * Z.abs b <=? Z.abs a
  then Err (OverflowError "integer division result too large for a float")
  else Ok (quotient a b).

(** [x * y] on two [float]s. *)
Definition float_mul (x y : float) : float := SFmul prec emax x y.

(** The exact value of a finite float as a fraction [(numerator,
    denominator)], the denominator a power of two. *)
Definition float_ratio (x : float) : Z * Z :=
  match x with
  | S754_finite s m e =>
      let n := if s then Zneg m else Zpos m in
      if 0 <=? e then (n * 2 ^ e, 1) else (n, 2 ^ (- e))
  | _ => (0, 1)
  end.

(** Rounding of [n / d] (with [0 <= n], [0 < d]) to the nearest integer,
    ties to the even one. *)
Definition div_half_even (n d : Z) : Z :=
  let q := n / d in
  match (2 * (n mod d) ?= d) with
  | Lt => q
  | Gt => q + 1
  | Eq => if Z.even q then q else q + 1
  end.

(** The magnitude of a finite float in hundredths, rounded to the nearest
    integer from the exact binary value (ties to even). *)
Definition hundredths (m : positive) (e : Z) : Z :=
  if 0 <=? e then Zpos m * 100 * 2 ^ e
  else div_half_even (Zpos m * 100) (2 ^ (- e)).

(** [round(x, 2)] on a [float]: the exact value is rounded to two decimal
    places and the decimal result is converted back to the nearest
    double. *)
Definition float_round2 (x : float) : float :=
  match x with
  | S754_finite s m e =>
      let q := hundredths m e in
      SFdiv prec emax (int_as_float (if s then - q else q) s)
                      (int_as_float 100 false)
  | _ => x
  end.

(** [format(x, '.2f')] on a [float]. *)
Definition float_fmt_2f (x : float) : string :=
  match x with
  | S754_zero s => (if s then "-" else "") +:+ "0.00"
  | S754_infinity s => (if s then "-" else "") +:+ "inf"
  | S754_nan => "nan"
  | S754_finite s m e =>
      let q := hundredths m e in
      (if s then "-" else "") +:+ pretty (q / 100) +:+ "." +:+
      fmt_0d 2 (Z.to_N (q mod 100))
  end.

(** ** Numbers: [int] or [float] *)

Inductive number :=
  | PyInt (n : Z)
  | PyFloat (x : float).

(** [round(v, 2)]: an [int] is returned as it is. *)
Definition round2 (v : number) : number :=
  match v with
  | PyInt n => PyInt n
  | PyFloat x => PyFloat (float_round2 x)
  end.

(** [v >= n] for an [int] literal [n]. *)
Definition number_geb (v : number) (n : Z) : bool :=
  match v with
  | PyInt a => n <=? a
  | PyFloat x =>
      match SFcompare x (float_of_int n) with
      | Some (Gt | Eq) => true
      | _ => false
      end
  end.

(** [f"{v:.2f}"]. *)
Definition fmt_2f (v : number) : string :=
  match v with
  | PyInt n => float_fmt_2f (float_of_int n)
  | PyFloat x => float_fmt_2f x
  end.

(** Whether the number is zero. *)
Definition number_is_zero (v : number) : bool :=
  match v with
  | PyInt n => n =? 0
  | PyFloat (S754_zero _) => true
  | PyFloat _ => false
  end.

(* ===================================================================== *)
(** * The world the application runs in *)
(* ===================================================================== *)

(** ** Logging *)

Inductive Level := INFO | WARNING | ERROR.

Record LogRecord := mk_LogRecord {
  levelname : Level;
  message : string
}.

(** ** The cache backend *)

(** A stored value with the instant (in seconds) at which it expires. *)
Record CacheEntry := mk_CacheEntry {
  ce_value : list Property.t;
  ce_expires : Z
}.

(** The reply of the backend's [INFO] command, as the dictionary the
    client parses it into; a counter may be missing. *)
Record RedisInfo := mk_RedisInfo {
  ri_keyspace_hits : option Z;
  ri_keyspace_misses : option Z;
  ri_redis_version : option string;
  ri_used_memory : option Z;
  ri_used_memory_human : option string;
  ri_connected_clients : option Z;
  ri_total_commands_processed : option Z;
  ri_instantaneous_ops_per_sec : option Z
}.

(** ** State *)

Record World := mk_World {
  (** the rows of the [Property] table, in insertion order *)
  table : list Property.t;
  (** the next primary key the table hands out *)
  next_id : Z;
  (** how many queries the Store has executed (the query-count probe) *)
  queries : nat;
  (** the keys held by the cache backend *)
  cache : gmap string CacheEntry;
  (** [Some msg] when the backend cannot be reached: every command then
      raises [ConnectionError msg] *)
  redis_fault : option string;
  (** the backend's operational counters, as [INFO] reports them; the
      commands of the model do not advance them *)
  redis_info : RedisInfo;
  (** the clock, in seconds *)
  now : Z;
  (** what the loggers have emitted, oldest first *)
  log : list LogRecord
}.

Definition with_table (t : list Property.t) (w : World) : World :=
  mk_World t (next_id w) (queries w) (cache w) (redis_fault w) (redis_info w)
           (now w) (log w).
Definition with_next_id (n : Z) (w : World) : World :=
  mk_World (table w) n (queries w) (cache w) (redis_fault w) (redis_info w)
           (now w) (log w).
Definition with_queries (n : nat) (w : World) : World :=
  mk_World (table w) (next_id w) n (cache w) (redis_fault w) (redis_info w)
           (now w) (log w).
Definition with_cache (c : gmap string CacheEntry) (w : World) : World :=
  mk_World (table w) (next_id w) (queries w) c (redis_fault w) (redis_info w)
           (now w) (log w).
Definition with_now (t : Z) (w : World) : World :=
  mk_World (table w) (next_id w) (queries w) (cache w) (redis_fault w)
           (redis_info w) t (log w).
Definition with_log (l : list LogRecord) (w : World) : World :=
  mk_World (table w) (next_id w) (queries w) (cache w) (redis_fault w)
           (redis_info w) (now w) l.

(** [dt] seconds pass. *)
Definition advance (dt : Z) (w : World) : World := with_now (now w + dt) w.

(** ** Computations: state and exceptions *)

Definition M (A : Type) : Type := World -> result A * World.

#[global] Instance M_ret : MRet M := fun A a w => (Ok a, w).
#[global] Instance M_bind : MBind M := fun A B k m w =>
  match m w with
  | (Ok a, w') => k a w'
  | (Err e, w') => (Err e, w')
  end.

(** [raise e]. *)
Definition raise {A} (e : Exception) : M A := fun w => (Err e, w).

(** [try: body / except Exception as e: handler(e)]. *)
Definition try_except {A} (body : M A) (handler : Exception -> M A) : M A :=
  fun w =>
    match body w with
    | (Ok a, w') => (Ok a, w')
    | (Err e, w') => handler e w'
    end.

(** An expression that may raise, evaluated in place. *)
Definition eval {A} (r : result A) : M A := fun w => (r, w).

(** [logger.info], [logger.warning], [logger.error]. *)
Definition logger_emit (lvl : Level) (msg : string) : M unit :=
  fun w => (Ok tt, with_log (log w ++ [mk_LogRecord lvl msg]) w).
Definition logger_info : string -> M unit := logger_emit INFO.
Definition logger_warning : string -> M unit := logger_emit WARNING.
Definition logger_error : string -> M unit := logger_emit ERROR.

(** ** The cache protocol: [get], [set] with a timeout, [delete] *)

(** A command sent to the backend: it raises when the backend cannot be
    reached. *)
Definition redis_command {A} (f : World -> A * World) : M A :=
  fun w =>
    match redis_fault w with
    | Some msg => (Err (ConnectionError msg), w)
    | None => let (a, w') := f w in (Ok a, w')
    end.

(** An entry is served up to and including its expiry instant: the
    backend drops it once the clock is past that instant. *)
Definition live (t : Z) (e : CacheEntry) : bool := t <=? ce_expires e.

(** The value a key holds at the world's instant, if any. *)
Definition cache_lookup (key : string) (w : World) : option (list Property.t) :=
  match cache w !! key with
  | Some e => if live (now w) e then Some (ce_value e) else None
  | None => None
  end.

(** [cache.get(key)]: the value, or [None]. *)
Definition cache_get (key : string) : M (option (list Property.t)) :=
  redis_command (fun w => (cache_lookup key w, w)).

(** [cache.set(key, value, timeout)]. *)
Definition cache_set (key : string) (value : list Property.t) (timeout : Z)
  : M unit :=
  redis_command (fun w =>
    (tt, with_cache (<[key := mk_CacheEntry value (now w + timeout)]> (cache w)) w)).

(** [cache.delete(key)]: whether a key was removed. *)
Definition cache_delete (key : string) : M bool :=
  redis_command (fun w =>
    (bool_decide (is_Some (cache_lookup key w)),
     with_cache (delete key (cache w)) w)).

(** [redis_connection.info()]. *)
Definition redis_connection_info : M RedisInfo :=
  redis_command (fun w => (redis_info w, w)).

(** [get_redis_connection("default")]: the client of the pool behind the
    alias; nothing is sent until the first command. *)
Definition get_redis_connection (alias : string) : M unit := mret tt.

(** ** The Store's one query shape *)

(** [p] was not created before [q]. *)
Definition newer_first (p q : Property.t) : Prop :=
  dt_leb (Property.created_at q) (Property.created_at p) = true.

#[global] Instance newer_first_dec : RelDecision newer_first.
Proof. intros p q. unfold newer_first. apply _. Defined.

(** A query set is a description of a query; nothing runs until it is
    evaluated. *)
Inductive QuerySet :=
  | QAll
  | QOrderByCreatedAtDesc (q : QuerySet).

(** [Property.objects.all()] and [.order_by('-created_at')]. *)
Definition Property_objects_all : QuerySet := QAll.
Definition order_by_created_at_desc (q : QuerySet) : QuerySet :=
  QOrderByCreatedAtDesc q.

(** The rows a query set selects from a table.  Among rows created at
    the same instant the database promises no order; here it is the one
    the sort leaves. *)
Fixpoint select (q : QuerySet) (rows : list Property.t) : list Property.t :=
  match q with
  | QAll => rows
  | QOrderByCreatedAtDesc q' => merge_sort newer_first (select q' rows)
  end.

(** [list(queryset)]: the query is executed and its rows collected. *)
Definition list_queryset (q : QuerySet) : M (list Property.t) :=
  fun w => (Ok (select q (table w)), with_queries (S (queries w)) w).

(* ===================================================================== *)
(** * [properties/utils.py] *)
(* ===================================================================== *)

(** [len(xs)] as a Python [int]. *)
Definition len {A} (xs : list A) : Z := Z.of_nat (length xs).

Definition get_all_properties : M (list Property.t) :=
  let cache_key := "all_properties" in
  cached_properties ← cache_get cache_key;
  match cached_properties with
  | Some cached =>
      _ ← logger_info ("Cache HIT for key '" +:+ cache_key +:+
                       "' - returning cached properties");
      mret cached
  | None =>
      _ ← logger_info ("Cache MISS for key '" +:+ cache_key +:+
                       "' - fetching from database");
      let properties_queryset :=
        order_by_created_at_desc Property_objects_all in
      properties_list ← list_queryset properties_queryset;
      _ ← cache_set cache_key properties_list 3600;
      _ ← logger_info ("Cached " +:+ str_int (len properties_list) +:+
                       " properties for 1 hour");
      mret properties_list
  end.

Definition invalidate_properties_cache : M bool :=
  let cache_key := "all_properties" in
  result ← cache_delete cache_key;
  _ ← (if result : bool
       then logger_info ("Successfully invalidated cache for key '" +:+
                         cache_key +:+ "'")
       else logger_warning ("Failed to invalidate cache for key '" +:+
                            cache_key +:+ "' (may not exist)"));
  mret result.

(** The dictionary [get_cache_info] returns. *)
Record CacheInfo := mk_CacheInfo {
  ci_cache_key : string;
  ci_exists : bool;
  ci_count : Z;
  ci_data_type : option string
}.

(** [type(v).__name__] of a cached value: the application only ever
    stores a [list] under the key. *)
Definition type_name (v : list Property.t) : string := "list".

Definition get_cache_info : M CacheInfo :=
  let cache_key := "all_properties" in
  cached_data ← cache_get cache_key;
  let exists_ := bool_decide (is_Some cached_data) in
  let info :=
    mk_CacheInfo cache_key exists_
      (match cached_data with Some v => len v | None => 0 end)
      (match cached_data with Some v => Some (type_name v) | None => None end) in
  mret info.

(** The dictionary [get_redis_cache_metrics] returns; the key ['error'] is
    present only in the record of the [except] branch. *)
Record Metrics := mk_Metrics {
  keyspace_hits : Z;
  keyspace_misses : Z;
  total_requests : Z;
  hit_ratio : number;
  miss_ratio : number;
  redis_version : string;
  used_memory : Z;
  used_memory_human : string;
  connected_clients : Z;
  total_commands_processed : Z;
  instantaneous_ops_per_sec : Z;
  cache_efficiency : string;
  error : option string
}.

(** [(count / total_requests) * 100 if total_requests > 0 else 0]. *)
Definition ratio_percent (count total : Z) : result number :=
  if 0 <? total then
    match int_truediv count total with
    | Ok x => Ok (PyFloat (float_mul x (float_of_int 100)))
    | Err e => Err e
    end
  else Ok (PyInt 0).

(** The efficiency label of a hit ratio. *)
Definition efficiency_label (hit_ratio : number) : string :=
  if number_geb hit_ratio 90 then "Excellent"
  else if number_geb hit_ratio 70 then "Good"
  else if number_geb hit_ratio 50 then "Fair"
  else "Poor".

Definition get_redis_cache_metrics : M Metrics :=
  try_except
    (redis_connection ← get_redis_connection "default";
     redis_info ← redis_connection_info;
     let keyspace_hits := default 0 (ri_keyspace_hits redis_info) in
     let keyspace_misses := default 0 (ri_keyspace_misses redis_info) in
     let total_requests := keyspace_hits + keyspace_misses in
     hit_ratio ← eval (ratio_percent keyspace_hits total_requests);
     miss_ratio ← eval (ratio_percent keyspace_misses total_requests);
     let metrics :=
       mk_Metrics keyspace_hits keyspace_misses total_requests
         (round2 hit_ratio) (round2 miss_ratio)
         (default "Unknown" (ri_redis_version redis_info))
         (default 0 (ri_used_memory redis_info))
         (default "0B" (ri_used_memory_human redis_info))
         (default 0 (ri_connected_clients redis_info))
         (default 0 (ri_total_commands_processed redis_info))
         (default 0 (ri_instantaneous_ops_per_sec redis_info))
         (efficiency_label hit_ratio)
         None in
     _ ← logger_info ("Redis Cache Metrics - " +:+
                      "Hits: " +:+ str_int keyspace_hits +:+
                      ", Misses: " +:+ str_int keyspace_misses +:+ ", " +:+
                      "Hit Ratio: " +:+ fmt_2f hit_ratio +:+
                      "%, Total Requests: " +:+ str_int total_requests +:+ ", " +:+
                      "Efficiency: " +:+ cache_efficiency metrics);
     mret metrics)
    (fun e =>
       _ ← logger_error ("Failed to retrieve Redis cache metrics: " +:+ str_exc e);
       mret (mk_Metrics 0 0 0 (PyFloat (S754_zero false)) (PyFloat (S754_zero false))
               "Unknown" 0 "0B" 0 0 0 "Error" (Some (str_exc e)))).

(* ===================================================================== *)
(** * [properties/signals.py] *)
(* ===================================================================== *)

Definition invalidate_cache_on_property_save
    (instance : Property.t) (created : bool) : M unit :=
  let cache_key := "all_properties" in
  cache_deleted ← cache_delete cache_key;
  let action := if created then "created" else "updated" in
  if cache_deleted : bool then
    logger_info ("Cache invalidated: Property '" +:+ Property.title instance +:+
                 "' was " +:+ action +:+ ". " +:+
                 "Cache key '" +:+ cache_key +:+ "' removed from Redis.")
  else
    logger_info ("Property '" +:+ Property.title instance +:+ "' was " +:+
                 action +:+ ". " +:+
                 "Cache key '" +:+ cache_key +:+
                 "' was not found (may have already expired).").

Definition invalidate_cache_on_property_delete (instance : Property.t) : M unit :=
  let cache_key := "all_properties" in
  cache_deleted ← cache_delete cache_key;
  if cache_deleted : bool then
    logger_info ("Cache invalidated: Property '" +:+ Property.title instance +:+
                 "' was deleted. " +:+
                 "Cache key '" +:+ cache_key +:+ "' removed from Redis.")
  else
    logger_info ("Property '" +:+ Property.title instance +:+ "' was deleted. " +:+
                 "Cache key '" +:+ cache_key +:+
                 "' was not found (may have already expired).").

Definition manual_cache_invalidation : M bool :=
  let cache_key := "all_properties" in
  result ← cache_delete cache_key;
  _ ← (if result : bool
       then logger_info ("Manual cache invalidation: Cache key '" +:+
                         cache_key +:+ "' removed.")
       else logger_warning ("Manual cache invalidation: Cache key '" +:+
                            cache_key +:+ "' not found."));
  mret result.

(* ===================================================================== *)
(** * Store mutations and the signals they send *)
(* ===================================================================== *)

(** [apps.py] imports [properties.signals] when the application is ready,
    which connects the two receivers to [post_save] and [post_delete] of
    [Property]; the framework then calls them, in the caller's thread, at
    the end of [save()] and [delete()]. *)

(** [post_save.send(sender=Property, instance=..., created=...)]. *)
Definition post_save_send (instance : Property.t) (created : bool) : M unit :=
  invalidate_cache_on_property_save instance created.

(** [post_delete.send(sender=Property, instance=...)]. *)
Definition post_delete_send (instance : Property.t) : M unit :=
  invalidate_cache_on_property_delete instance.

(** The statements the framework issues for the model's manager and for
    [save()] and [delete()].  [INSERT] of a new row under a fresh primary
    key. *)
Definition sql_insert (title description : string) (price : Decimal)
    (location : string) (created_at : datetime) : M Property.t :=
  fun w =>
    let p := Property.mk (next_id w) title description price location created_at in
    (Ok p, with_queries (S (queries w))
             (with_next_id (next_id w + 1) (with_table (table w ++ [p]) w))).

(** Whether a row of the table carries the primary key. *)
Definition has_id (i : Z) (rows : list Property.t) : bool :=
  existsb (fun r => Property.id r =? i) rows.

(** [UPDATE ... WHERE id = p.id]: whether a row matched. *)
Definition sql_update (p : Property.t) : M bool :=
  fun w =>
    (Ok (has_id (Property.id p) (table w)),
     with_queries (S (queries w))
       (with_table
          (map (fun r => if Property.id r =? Property.id p then p else r) (table w))
          w)).

(** [INSERT] of a row that brings its own primary key. *)
Definition sql_insert_with_id (p : Property.t) : M unit :=
  fun w =>
    (Ok tt, with_queries (S (queries w))
              (with_next_id (Z.max (next_id w) (Property.id p + 1))
                 (with_table (table w ++ [p]) w))).

(** [DELETE ... WHERE id = p.id]. *)
Definition sql_delete (p : Property.t) : M unit :=
  fun w =>
    (Ok tt, with_queries (S (queries w))
              (with_table
                 (filter (fun r => Property.id r ≠ Property.id p) (table w)) w)).

(** [Property.objects.create(...)]: the row is written, then [post_save]
    is sent with [created=True]. *)
Definition Property_objects_create (title description : string)
    (price : Decimal) (location : string) (created_at : datetime)
  : M Property.t :=
  p ← sql_insert title description price location created_at;
  _ ← post_save_send p true;
  mret p.

(** [instance.save()] on an instance that has a primary key: the row is
    updated, or inserted when no row matched; then [post_save] is sent. *)
Definition Property_save (instance : Property.t) : M unit :=
  updated ← sql_update instance;
  _ ← (if updated : bool then mret tt else sql_insert_with_id instance);
  post_save_send instance (negb updated).

(** [instance.delete()]: the row is removed, then [post_delete] is sent. *)
Definition Property_delete (instance : Property.t) : M unit :=
  _ ← sql_delete instance;
  post_delete_send instance.

(* ===================================================================== *)
(** * [properties/views.py] *)
(* ===================================================================== *)

(** JSON documents; an object keeps its keys in insertion order. *)
#[warnings="-register-all"]
Inductive json :=
  | JNull
  | JBool (b : bool)
  | JNum (n : Z)
  | JStr (s : string)
  | JArr (items : list json)
  | JObj (members : list (string * json)).

(** What the views and [cache_page] read of a request: the method, the
    path and the query string (what follows [?] in the URL). *)
Record HttpRequest := Build_HttpRequest {
  req_method : string;
  req_path : string;
  req_query : string
}.

(** A request without a query string. *)
Definition mk_HttpRequest (method path : string) : HttpRequest :=
  Build_HttpRequest method path "".

(** [JsonResponse(data)]: status 200 and the JSON content type. *)
Record JsonResponse := mk_JsonResponse {
  status_code : Z;
  content_type : string;
  body : json
}.

Definition JsonResponse_of (data : json) : JsonResponse :=
  mk_JsonResponse 200 "application/json" data.

(** The dictionary appended for one property. *)
Definition property_record (property : Property.t) : json :=
  JObj [("id", JNum (Property.id property));
        ("title", JStr (Property.title property));
        ("description", JStr (Property.description property));
        ("price", JStr (str_Decimal (Property.price property)));
        ("location", JStr (Property.location property));
        ("created_at", JStr (isoformat (Property.created_at property)))].

(** The [for] loop of [property_list]: [properties_data] grows by one
    record per property. *)
Fixpoint append_records (properties : list Property.t)
    (properties_data : list json) : list json :=
  match properties with
  | [] => properties_data
  | property :: rest =>
      append_records rest (properties_data ++ [property_record property])
  end.

(** The body of the view; [cache_page(60 * 15)], the framework's
    decorator around it, replays a response it has stored for the same
    request during the last 900 seconds instead of calling the view. *)
Definition property_list (request : HttpRequest) : M JsonResponse :=
  properties ← get_all_properties;
  let properties_data := append_records properties [] in
  mret (JsonResponse_of
          (JObj [("properties", JArr properties_data);
                 ("count", JNum (len properties_data));
                 ("cached", JBool true)])).

(** The timeout, in seconds, that [cache_page] is given for both views. *)
Definition cache_page_timeout : Z := 60 * 15.

(** The context [property_list_html] hands to the template. *)
Record HtmlContext := mk_HtmlContext {
  ctx_properties : list Property.t;
  ctx_cached_view : bool
}.

Definition property_list_html (request : HttpRequest) : M HtmlContext :=
  properties ← get_all_properties;
  let context := mk_HtmlContext properties true in
  mret context.

(** ** The response tier: [cache_page] *)

(** A stored response with the instant at which it expires. *)
Record PageEntry := mk_PageEntry {
  pe_response : JsonResponse;
  pe_expires : Z
}.

(** The key under which [cache_page] keeps the response to a request: the
    framework's prefix, then the method and the URL, that is the path and
    the query string. *)
Definition page_key (method : string) (request : HttpRequest) : string :=
  "views.decorators.cache.cache_page." +:+ method +:+ "." +:+
  req_path request +:+ "?" +:+ req_query request.

(** The world together with the responses the framework's [cache_page]
    keeps in the same backend.  The two share the backend's keys: what
    the application stores under a key replaces a response kept under
    it. *)
Record Site := mk_Site {
  world : World;
  pages : gmap string PageEntry
}.

(** Computations over a site. *)
Definition V (A : Type) : Type := Site -> result A * Site.

(** Code of the application run inside a site.  It addresses the backend
    under the key ['all_properties'] and no other ([cache_key] in
    [utils.py] and [signals.py]): a response kept under that key is not
    there for [cache_page] afterwards, the others are out of its reach. *)
Definition in_world {A} (m : M A) : V A :=
  fun s =>
    let '(r, w') := m (world s) in
    (r, mk_Site w' (delete "all_properties" (pages s))).

(** [dt] seconds pass. *)
Definition advance_site (dt : Z) (s : Site) : Site :=
  mk_Site (advance dt (world s)) (pages s).

(** The response stored for the request under the given method, as long
    as the clock is not past its expiry instant. *)
Definition page_lookup (method : string) (request : HttpRequest) (s : Site)
  : option JsonResponse :=
  match pages s !! page_key method request with
  | Some e => if now (world s) <=? pe_expires e then Some (pe_response e) else None
  | None => None
  end.

(** [cache_page(timeout)(view)]: a [GET] or [HEAD] request is answered
    from the stored response when there is one ([HEAD] also looks under
    its own method); otherwise the view runs and its response, when its
    status is 200, is stored for [timeout] seconds.  Other methods go
    straight to the view.  The backend being the cache's, an unreachable
    one raises. *)
Definition cache_page (timeout : Z) (view : HttpRequest -> M JsonResponse)
    (request : HttpRequest) : V JsonResponse :=
  fun s =>
    if negb (String.eqb (req_method request) "GET" ||
             String.eqb (req_method request) "HEAD")
    then in_world (view request) s
    else
      match redis_fault (world s) with
      | Some msg => (Err (ConnectionError msg), s)
      | None =>
          let cached :=
            match page_lookup "GET" request s with
            | Some response => Some response
            | None =>
                if String.eqb (req_method request) "HEAD"
                then page_lookup "HEAD" request s
                else None
            end in
          match cached with
          | Some response => (Ok response, s)
          | None =>
              match in_world (view request) s with
              | (Ok response, s') =>
                  if (timeout =? 0) || negb (status_code response =? 200)
                  then (Ok response, s')
                  else (Ok response,
                        mk_Site (world s')
                          (<[page_key (req_method request) request :=
                               mk_PageEntry response
                                 (now (world s') + timeout)]>
                             (pages s')))
              | (Err e, s') => (Err e, s')
              end
          end
      end.

(** What [views.py] binds the name [property_list] to: the view behind
    [@cache_page(60 * 15)]. *)
Definition cached_property_list : HttpRequest -> V JsonResponse :=
  cache_page cache_page_timeout property_list.

(** The response [property_list] builds for a list of properties. *)
Definition listing_response (properties : list Property.t) : JsonResponse :=
  JsonResponse_of
    (JObj [("properties", JArr (map property_record properties));
           ("count", JNum (len properties));
           ("cached", JBool true)]).





(* ===================================================================== *)
(** * Observations used by the statements *)
(* ===================================================================== *)

(** The one key of the queryset tier. *)
Definition all_properties : string := "all_properties".

(** The levels of the records logged between two worlds. *)
Definition logged (before after : World) : list LogRecord :=
  drop (length (log before)) (log after).

(** What a run of [get_all_properties] after each of the given waits
    returns, the world being handed from one call to the next. *)
Fixpoint fetch_each (waits : list Z) (w : World)
  : list (result (list Property.t)) :=
  match waits with
  | [] => []
  | dt :: rest =>
      let '(r, w') := get_all_properties (advance dt w) in
      r :: fetch_each rest w'
  end.

(** The cache agrees with the Store: a stored listing, expired or not, is
    the ordered content of the table. *)
Definition coherent (w : World) : Prop :=
  forall e, cache w !! all_properties = Some e ->
    ce_value e = select (order_by_created_at_desc Property_objects_all) (table w).

(** The rows of the table as the query returns them. *)
Abbreviation listing rows :=
  (select (order_by_created_at_desc Property_objects_all) rows) (only parsing).

(** The world a cache hit leaves behind, and the one a miss leaves
    behind. *)
Definition after_hit (w : World) : World :=
  with_log (log w ++ [mk_LogRecord INFO
    "Cache HIT for key 'all_properties' - returning cached properties"]) w.

Definition after_miss (w : World) : World :=
  let l := select (order_by_created_at_desc Property_objects_all) (table w) in
  with_log (log w ++
              [mk_LogRecord INFO
                 "Cache MISS for key 'all_properties' - fetching from database";
               mk_LogRecord INFO
                 ("Cached " +:+ str_int (len l) +:+ " properties for 1 hour")])
    (with_cache (<[all_properties := mk_CacheEntry l (now w + 3600)]> (cache w))
       (with_queries (S (queries w)) w)).

(** Whether the key holds a value at the world's instant. *)
Definition present (w : World) : bool :=
  bool_decide (is_Some (cache_lookup all_properties w)).

(** The world after the key was deleted and one record was logged. *)
Definition after_delete (lvl : Level) (msg : string) (w : World) : World :=
  with_log (log w ++ [mk_LogRecord lvl msg])
    (with_cache (delete all_properties (cache w)) w).

(** The record of the [except] branch. *)
Definition error_metrics (description : string) : Metrics :=
  mk_Metrics 0 0 0 (PyFloat (S754_zero false)) (PyFloat (S754_zero false))
    "Unknown" 0 "0B" 0 0 0 "Error" (Some description).

(** [count / total * 100], or the [int] 0 when the total is 0: the value
    of the local variables [hit_ratio] and [miss_ratio]. *)
Definition percent (count total : Z) : number :=
  if 0 <? total
  then PyFloat (float_mul (quotient count total) (float_of_int 100))
  else PyInt 0.

(** The record of the [try] branch for the counters [hits] and [misses]
    of an [INFO] reply. *)
Definition success_metrics (info : RedisInfo) (hits misses : Z) : Metrics :=
  mk_Metrics hits misses (hits + misses)
    (round2 (percent hits (hits + misses)))
    (round2 (percent misses (hits + misses)))
    (default "Unknown" (ri_redis_version info))
    (default 0 (ri_used_memory info))
    (default "0B" (ri_used_memory_human info))
    (default 0 (ri_connected_clients info))
    (default 0 (ri_total_commands_processed info))
    (default 0 (ri_instantaneous_ops_per_sec info))
    (efficiency_label (percent hits (hits + misses)))
    None.

(** A delete-and-log operation logs the absent case at warning severity:
    on a reachable backend whose cache holds nothing under the key, the
    one record it logs is a [WARNING]. *)
Definition logs_absent_at_warning {A} (operation : M A) : Prop :=
  forall w,
    redis_fault w = None ->
    cache_lookup all_properties w = None ->
    map levelname (logged w (snd (operation w))) = [WARNING].

(** Whether a ratio of the record is the exact quotient
    [100 * count / total]. *)
Definition is_exact_percentage (v : number) (count total : Z) : Prop :=
  match v with
  | PyInt n => n * total = 100 * count
  | PyFloat (S754_finite s m e) =>
      fst (float_ratio (S754_finite s m e)) * total
      = 100 * count * snd (float_ratio (S754_finite s m e))
  | PyFloat (S754_zero _) => count = 0
  | PyFloat _ => False
  end.

(** The exact quotient [100 * count / total] has more than two decimal
    digits: it is not a whole number of hundredths. *)
Definition more_than_two_decimals (count total : Z) : Prop :=
  (10000 * count) mod total <> 0.

(** The rounding read as always visible: whenever the exact hit ratio has
    more than two decimal digits, the [hit_ratio] of the success record
    is not the exact quotient. *)
Definition rounding_always_visible : Prop :=
  forall (w w1 : World) (hits misses : Z) (m : Metrics),
    redis_fault w = None ->
    default 0 (ri_keyspace_hits (redis_info w)) = hits ->
    default 0 (ri_keyspace_misses (redis_info w)) = misses ->
    0 <= hits -> 0 <= misses -> 0 < hits + misses ->
    get_redis_cache_metrics w = (Ok m, w1) ->
    more_than_two_decimals hits (hits + misses) ->
    ~ is_exact_percentage (hit_ratio m) hits (hits + misses).

(** The label the thresholds give in exact arithmetic: [hits / total]
    against 9/10, 7/10 and 1/2. *)
Definition exact_label (hits misses : Z) : string :=
  let total := hits + misses in
  if total <=? 0 then "Poor"
  else if 9 * total <=? 10 * hits then "Excellent"
  else if 7 * total <=? 10 * hits then "Good"
  else if total <=? 2 * hits then "Fair"
  else "Poor".

(** The integers [0 .. n]. *)
Definition upto (n : nat) : list Z := map Z.of_nat (seq 0 (S n)).

(** Whether the computed label is the exact one for every pair of
    counters up to [n]. *)
Definition labels_agree_upto (n : nat) : bool :=
  forallb (fun hits =>
    forallb (fun misses =>
      String.eqb (efficiency_label (percent hits (hits + misses)))
                 (exact_label hits misses))
      (upto n))
    (upto n).


(** ** The statements of a miss, taken apart *)

(** [get_all_properties] on a miss, from the log line to the evaluation
    of the query set (lines 39 to 46 of [utils.py]). *)
Definition load_from_store : M (list Property.t) :=
  let cache_key := "all_properties" in
  _ ← logger_info ("Cache MISS for key '" +:+ cache_key +:+
                   "' - fetching from database");
  let properties_queryset := order_by_created_at_desc Property_objects_all in
  list_queryset properties_queryset.

(** [get_all_properties] on a miss, from [cache.set] to the [return]
    (lines 49 to 52). *)
Definition store_in_cache (properties_list : list Property.t)
  : M (list Property.t) :=
  let cache_key := "all_properties" in
  _ ← cache_set cache_key properties_list 3600;
  _ ← logger_info ("Cached " +:+ str_int (len properties_list) +:+
                   " properties for 1 hour");
  mret properties_list.

(** ** Worlds to run the code in *)

Definition utc (y mo d h mi s : N) : datetime := mk_datetime y mo d h mi s 0 true.

Definition flat : Property.t :=
  Property.mk 1 "Flat" "Two rooms" (mk_Decimal false 25000000 (-2)) "Nairobi"
    (utc 2024 1 5 10 30 0).
Definition house : Property.t :=
  Property.mk 2 "House" "Garden" (mk_Decimal false 9950050 (-2)) "Mombasa"
    (utc 2024 2 1 8 0 0).
Definition villa : Property.t :=
  Property.mk 3 "Villa" "Sea view" (mk_Decimal false 120000000 (-2)) "Kisumu"
    (utc 2024 3 9 17 45 12).

Definition no_info : RedisInfo :=
  mk_RedisInfo None None None None None None None None.

Definition info_of_counters (hits misses : Z) : RedisInfo :=
  mk_RedisInfo (Some hits) (Some misses) (Some "7.2.4") (Some 1048576)
    (Some "1.00M") (Some 3) (Some 4200) (Some 12).

(** An empty Store behind an empty cache. *)
Definition world_empty : World :=
  mk_World [] 1 0 ∅ None no_info 1000 [].

(** Three rows, stored out of chronological order, behind an empty
    cache. *)
Definition world_three : World :=
  mk_World [house; flat; villa] 4 0 ∅ None no_info 1000 [].

(** The same Store behind a cache that holds a stale listing. *)
Definition world_stale : World :=
  mk_World [house; flat; villa] 4 0
    {[ all_properties := mk_CacheEntry [flat] 2000 ]} None no_info 1000 [].

(** A backend that cannot be reached. *)
Definition world_down : World :=
  mk_World [house; flat; villa] 4 0 ∅
    (Some "Error 111 connecting to localhost:6379. Connection refused.")
    no_info 1000 [].

Definition flat_renamed : Property.t :=
  Property.mk 1 "Flat (sold)" "Two rooms" (mk_Decimal false 25000000 (-2))
    "Nairobi" (utc 2024 1 5 10 30 0).

(** A reachable backend that reports the given counters. *)
Definition world_counters (hits misses : Z) : World :=
  mk_World [] 1 0 ∅ None (info_of_counters hits misses) 1000 [].

(** A request for the JSON listing. *)
Definition get_listing : HttpRequest := mk_HttpRequest "GET" "/properties/".

(** A site in which nothing has been cached yet. *)
Definition site_three : Site := mk_Site world_three ∅.

(** A row that is not in the table of [world_three]. *)
Definition cottage : Property.t :=
  Property.mk 4 "Cottage" "By the lake" (mk_Decimal false 4500000 (-2))
    "Naivasha" (utc 2024 4 2 9 0 0).

(** Every field of a world but its log. *)
Definition without_log (w : World) : World := with_log [] w.

(** What the application must not touch when it only uses the cache: the
    rows of the table and the key counter. *)
Definition same_store (w w1 : World) : Prop :=
  table w1 = table w /\ next_id w1 = next_id w.

(* ===================================================================== *)
(** * Chronological order *)
(* ===================================================================== *)

Section Chronology.

Lemma lex_compare_refl xs : lex_compare xs xs = Eq.
Proof.
  induction xs as [|x xs IH]; simpl; [done|].
  by rewrite N.compare_refl.
Qed.

Lemma lex_compare_antisym xs ys :
  lex_compare ys xs = CompOpp (lex_compare xs ys).
Proof.
  revert ys. induction xs as [|x xs IH]; intros [|y ys]; simpl; try done.
  rewrite (N.compare_antisym x y).
  destruct (x ?= y)%N; simpl; auto.
Qed.

Lemma lex_compare_le_trans xs ys zs :
  lex_compare xs ys <> Gt -> lex_compare ys zs <> Gt -> lex_compare xs zs <> Gt.
Proof.
  revert ys zs. induction xs as [|x xs IH]; intros [|y ys] [|z zs]; simpl; try done.
  destruct (N.compare_spec x y), (N.compare_spec y z), (N.compare_spec x z);
    subst; try done; try lia; eauto.
Qed.

Lemma lex_compare_lt_trans xs ys zs :
  lex_compare xs ys = Lt -> lex_compare ys zs = Lt -> lex_compare xs zs = Lt.
Proof.
  revert ys zs. induction xs as [|x xs IH]; intros [|y ys] [|z zs]; simpl; try done.
  destruct (N.compare_spec x y), (N.compare_spec y z), (N.compare_spec x z);
    subst; try done; try lia; eauto.
Qed.

Lemma dt_ltb_trans a b c :
  dt_ltb a b = true -> dt_ltb b c = true -> dt_ltb a c = true.
Proof.
  unfold dt_ltb, dt_compare. intros Hab Hbc.
  rewrite (lex_compare_lt_trans (dt_fields a) (dt_fields b) (dt_fields c)); [done| |].
  - by destruct (lex_compare (dt_fields a) (dt_fields b)).
  - by destruct (lex_compare (dt_fields b) (dt_fields c)).
Qed.

Lemma dt_ltb_not_leb a b : dt_ltb a b = true -> dt_leb b a = false.
Proof.
  unfold dt_ltb, dt_leb, dt_compare.
  rewrite (lex_compare_antisym (dt_fields a) (dt_fields b)).
  by destruct (lex_compare (dt_fields a) (dt_fields b)).
Qed.

Lemma dt_ltb_leb a b : dt_ltb a b = true -> dt_leb a b = true.
Proof.
  unfold dt_ltb, dt_leb. by destruct (dt_compare a b).
Qed.

Lemma dt_leb_refl a : dt_leb a a = true.
Proof. unfold dt_leb, dt_compare. by rewrite lex_compare_refl. Qed.

#[global] Instance newer_first_total : Total newer_first.
Proof.
  intros p q. unfold newer_first, dt_leb, dt_compare.
  rewrite (lex_compare_antisym (dt_fields (Property.created_at q))
             (dt_fields (Property.created_at p))).
  destruct (lex_compare (dt_fields (Property.created_at q))
              (dt_fields (Property.created_at p))); simpl; auto.
Qed.

#[global] Instance newer_first_trans : Transitive newer_first.
Proof.
  intros p q r. unfold newer_first, dt_leb, dt_compare. intros Hpq Hqr.
  pose proof (lex_compare_le_trans (dt_fields (Property.created_at r))
                (dt_fields (Property.created_at q))
                (dt_fields (Property.created_at p))) as Ht.
  destruct (lex_compare (dt_fields (Property.created_at r))
              (dt_fields (Property.created_at p))); try done.
  exfalso. apply Ht; [| |done].
  - by destruct (lex_compare (dt_fields (Property.created_at r))
                   (dt_fields (Property.created_at q))).
  - by destruct (lex_compare (dt_fields (Property.created_at q))
                   (dt_fields (Property.created_at p))).
Qed.

(** The query returns every row of the table, newest first. *)
Lemma select_ordered_perm (rows : list Property.t) :
  select (order_by_created_at_desc Property_objects_all) rows ≡ₚ rows.
Proof. simpl. apply merge_sort_Permutation. Qed.

Lemma select_ordered_sorted (rows : list Property.t) :
  StronglySorted newer_first
    (select (order_by_created_at_desc Property_objects_all) rows).
Proof. simpl. apply StronglySorted_merge_sort; apply _. Qed.

Lemma select_ordered_elem (rows : list Property.t) (p : Property.t) :
  p ∈ select (order_by_created_at_desc Property_objects_all) rows <-> p ∈ rows.
Proof. by rewrite select_ordered_perm. Qed.

(** Three rows created at three different instants come back in one
    order only, whatever their order in the table. *)
Lemma select_ordered_three (rows : list Property.t) (p1 p2 p3 : Property.t) :
  dt_ltb (Property.created_at p1) (Property.created_at p2) = true ->
  dt_ltb (Property.created_at p2) (Property.created_at p3) = true ->
  rows ≡ₚ [p1; p2; p3] ->
  select (order_by_created_at_desc Property_objects_all) rows = [p3; p2; p1].
Proof.
  intros H12 H23 Hperm.
  pose proof (dt_ltb_trans _ _ _ H12 H23) as H13.
  assert (Hin : forall x : Property.t,
             x ∈ [p3; p2; p1] -> x = p1 \/ x = p2 \/ x = p3).
  { intros x. rewrite !elem_of_cons, elem_of_nil. tauto. }
  assert (Hin' : forall x : Property.t,
             x ∈ [p1; p2; p3] -> x = p1 \/ x = p2 \/ x = p3).
  { intros x. rewrite !elem_of_cons, elem_of_nil. tauto. }
  apply (StronglySorted_unique_strong newer_first).
  - intros x1 x2 Hx1 Hx2 R12 R21.
    apply (proj1 (select_ordered_elem rows x1)) in Hx1.
    apply (elem_of_Permutation_proper x1 _ _ Hperm), Hin' in Hx1.
    apply Hin in Hx2. unfold newer_first in R12, R21.
    destruct Hx1 as [-> | [-> | ->]], Hx2 as [-> | [-> | ->]]; try done;
      repeat match goal with
             | H : dt_ltb ?a ?b = true |- _ => apply dt_ltb_not_leb in H
             end; congruence.
  - apply select_ordered_sorted.
  - unfold newer_first.
    repeat constructor; auto using dt_ltb_leb.
  - rewrite select_ordered_perm, Hperm.
    symmetry. apply (reverse_Permutation [p1; p2; p3]).
Qed.

End Chronology.

(* ===================================================================== *)
(** * The cache protocol on a reachable backend *)
(* ===================================================================== *)

Section Reachable.

Variable w : World.
Hypothesis Hup : redis_fault w = None.

Lemma cache_get_up key : cache_get key w = (Ok (cache_lookup key w), w).
Proof using Hup. unfold cache_get, redis_command. by rewrite Hup. Qed.

Lemma cache_set_up key value timeout :
  cache_set key value timeout w =
  (Ok tt, with_cache (<[key := mk_CacheEntry value (now w + timeout)]> (cache w)) w).
Proof using Hup. unfold cache_set, redis_command. by rewrite Hup. Qed.

Lemma cache_delete_up key :
  cache_delete key w =
  (Ok (bool_decide (is_Some (cache_lookup key w))),
   with_cache (delete key (cache w)) w).
Proof using Hup. unfold cache_delete, redis_command. by rewrite Hup. Qed.

Lemma get_all_properties_hit v :
  cache_lookup all_properties w = Some v ->
  get_all_properties w = (Ok v, after_hit w).
Proof using Hup.
  intros Hv. unfold get_all_properties, mbind, M_bind.
  rewrite cache_get_up. fold all_properties. by rewrite Hv.
Qed.

Lemma get_all_properties_miss :
  cache_lookup all_properties w = None ->
  get_all_properties w =
  (Ok (select (order_by_created_at_desc Property_objects_all) (table w)),
   after_miss w).
Proof using Hup.
  intros Hv. unfold get_all_properties, mbind, M_bind.
  rewrite cache_get_up. fold all_properties. rewrite Hv.
  unfold logger_info, logger_emit, list_queryset, cache_set, redis_command.
  simpl. rewrite Hup. unfold after_miss. simpl.
  by rewrite <-app_assoc.
Qed.

End Reachable.

(* ===================================================================== *)
(** * Cache-aside reads *)
(* ===================================================================== *)

Lemma cache_lookup_Some key w v :
  cache_lookup key w = Some v ->
  exists e, cache w !! key = Some e /\ ce_value e = v /\ now w <= ce_expires e.
Proof.
  unfold cache_lookup, live. destruct (cache w !! key) as [e|]; [|done].
  destruct (Z.leb_spec (now w) (ce_expires e)); [|done].
  intros [= <-]. eauto.
Qed.

Lemma cache_lookup_absent key w :
  cache w !! key = None -> cache_lookup key w = None.
Proof. unfold cache_lookup. by intros ->. Qed.

(** A listing written by a miss is served for the next 3600 seconds, the
    last instant included, and not after. *)
Lemma cache_lookup_after_miss w dt :
  cache_lookup all_properties (advance dt (after_miss w)) =
  if dt <=? 3600 then Some (listing (table w)) else None.
Proof.
  unfold cache_lookup, advance, after_miss, live. simpl.
  rewrite lookup_insert_eq. simpl.
  destruct (Z.leb_spec dt 3600), (Z.leb_spec (now w + dt) (now w + 3600));
    try done; lia.
Qed.

Lemma coherent_after_hit w : coherent w -> coherent (after_hit w).
Proof. unfold coherent, after_hit. simpl. auto. Qed.

Lemma coherent_after_miss w : coherent (after_miss w).
Proof.
  unfold coherent, after_miss. simpl. intros e.
  rewrite lookup_insert_eq. by intros [= <-].
Qed.

Lemma coherent_advance w dt : coherent w -> coherent (advance dt w).
Proof. unfold coherent, advance. simpl. auto. Qed.

Lemma coherent_absent w : cache w !! all_properties = None -> coherent w.
Proof. unfold coherent. intros -> e. done. Qed.

(** On a coherent world a read returns the ordered table, whether it is
    served by the cache or by the Store, and leaves a coherent world. *)
Lemma get_all_properties_coherent w :
  redis_fault w = None -> coherent w ->
  exists w',
    get_all_properties w = (Ok (listing (table w)), w') /\
    redis_fault w' = None /\ coherent w' /\ table w' = table w.
Proof.
  intros Hup Hco.
  destruct (cache_lookup all_properties w) as [v|] eqn:Hv.
  - exists (after_hit w). rewrite (get_all_properties_hit w Hup v Hv).
    apply cache_lookup_Some in Hv as (e & He & <- & _).
    rewrite (Hco e He). auto using coherent_after_hit.
  - exists (after_miss w). rewrite (get_all_properties_miss w Hup Hv).
    auto using coherent_after_miss.
Qed.

Lemma fetch_each_coherent waits : forall w,
  redis_fault w = None -> coherent w ->
  Forall (fun r => r = Ok (listing (table w))) (fetch_each waits w).
Proof.
  induction waits as [|dt waits IH]; intros w Hup Hco; simpl; [constructor|].
  destruct (get_all_properties_coherent (advance dt w)) as (w' & Hrun & Hup' & Hco' & Htab);
    [done|by apply coherent_advance|].
  rewrite Hrun. constructor; [done|].
  specialize (IH w' Hup' Hco'). by rewrite Htab in IH.
Qed.

(** C2. [get_all_properties] is a cache-aside read.  On a reachable
    backend: when the cache holds a value under ['all_properties'] that
    value is returned as it is and the Store is not queried; otherwise the
    Store is queried once, the result is every row of the table ordered by
    [created_at] descending (three rows created at [t1 < t2 < t3] come back
    as [[t3, t2, t1]]), it is written to the cache as a list that expires
    3600 seconds later, and a lookup during those 3600 seconds returns the
    same list without another query. *)
Theorem get_all_properties_cache_aside (w : World) :
  redis_fault w = None ->
  match cache_lookup all_properties w with
  | Some cached =>
      exists w1,
        get_all_properties w = (Ok cached, w1) /\
        queries w1 = queries w /\ cache w1 = cache w /\ table w1 = table w
  | None =>
      exists l w1,
        get_all_properties w = (Ok l, w1) /\
        l ≡ₚ table w /\
        StronglySorted newer_first l /\
        (forall p1 p2 p3,
           dt_ltb (Property.created_at p1) (Property.created_at p2) = true ->
           dt_ltb (Property.created_at p2) (Property.created_at p3) = true ->
           table w ≡ₚ [p1; p2; p3] -> l = [p3; p2; p1]) /\
        queries w1 = S (queries w) /\
        cache w1 !! all_properties = Some (mk_CacheEntry l (now w + 3600)) /\
        forall dt, 0 <= dt < 3600 ->
          exists w2,
            get_all_properties (advance dt w1) = (Ok l, w2) /\
            queries w2 = queries w1
  end.
Proof.
  intros Hup. destruct (cache_lookup all_properties w) as [v|] eqn:Hv.
  - exists (after_hit w). by rewrite (get_all_properties_hit w Hup v Hv).
  - exists (listing (table w)), (after_miss w).
    rewrite (get_all_properties_miss w Hup Hv).
    split_and!; try done.
    + apply select_ordered_perm.
    + apply select_ordered_sorted.
    + intros p1 p2 p3. apply select_ordered_three.
    + unfold after_miss. simpl. by rewrite lookup_insert_eq.
    + intros dt [Hlo Hhi]. exists (after_hit (advance dt (after_miss w))).
      rewrite (get_all_properties_hit (advance dt (after_miss w)) Hup
                 (listing (table w))); [done|].
      rewrite cache_lookup_after_miss.
      by destruct (Z.leb_spec dt 3600); [|lia].
Qed.

Lemma get_all_properties_cache_aside_witness :
  (exists w1, get_all_properties world_stale = (Ok [flat], w1) /\
              queries w1 = queries world_stale) /\
  (exists w1 w2,
     get_all_properties world_three = (Ok [villa; house; flat], w1) /\
     queries w1 = 1%nat /\
     get_all_properties (advance 3599 w1) = (Ok [villa; house; flat], w2) /\
     queries w2 = 1%nat).
Proof.
  split.
  - pose proof (get_all_properties_cache_aside world_stale eq_refl) as H.
    change (cache_lookup all_properties world_stale) with (Some [flat]) in H.
    destruct H as (w1 & Hrun & Hq & _).
    exists w1. split; [exact Hrun|exact Hq].
  - pose proof (get_all_properties_cache_aside world_three eq_refl) as H.
    change (cache_lookup all_properties world_three)
      with (@None (list Property.t)) in H.
    destruct H as (l & w1 & Hrun & _ & _ & Hord & Hq & _ & Hnext).
    assert (Hl : l = [villa; house; flat]).
    { apply (Hord flat house villa); [reflexivity|reflexivity|].
      apply (Permutation_swap flat house [villa]). }
    subst l.
    destruct (Hnext 3599 ltac:(lia)) as (w2 & Hrun2 & Hq2).
    exists w1, w2. rewrite Hq2, Hq. auto.
Defined.

(** C6. With an empty Store and nothing in the cache, [get_all_properties]
    raises nothing: it returns the empty list and stores that empty list
    under ['all_properties']; a call during the next 3600 seconds finds it
    there, returns it as a hit and does not query the Store. *)
Theorem get_all_properties_empty_store (w : World) :
  redis_fault w = None ->
  table w = [] ->
  cache_lookup all_properties w = None ->
  exists w1,
    get_all_properties w = (Ok [], w1) /\
    cache w1 !! all_properties = Some (mk_CacheEntry [] (now w + 3600)) /\
    forall dt, 0 <= dt < 3600 ->
      cache_lookup all_properties (advance dt w1) = Some [] /\
      get_all_properties (advance dt w1) = (Ok [], after_hit (advance dt w1)) /\
      queries (after_hit (advance dt w1)) = queries w1.
Proof.
  intros Hup Hempty Hmiss. exists (after_miss w).
  rewrite (get_all_properties_miss w Hup Hmiss).
  assert (Hl : listing (table w) = []) by (by rewrite Hempty).
  split_and!.
  - by rewrite Hl.
  - unfold after_miss. simpl. rewrite lookup_insert_eq. by rewrite Hempty.
  - intros dt [Hlo Hhi].
    assert (Hhit : cache_lookup all_properties (advance dt (after_miss w)) = Some []).
    { rewrite cache_lookup_after_miss, Hl.
      by destruct (Z.leb_spec dt 3600); [|lia]. }
    split_and!; [done| |done].
    by apply (get_all_properties_hit (advance dt (after_miss w)) Hup).
Qed.

Lemma get_all_properties_empty_store_witness :
  exists w1,
    get_all_properties world_empty = (Ok [], w1) /\
    cache_lookup all_properties (advance 60 w1) = Some [] /\
    get_all_properties (advance 60 w1) = (Ok [], after_hit (advance 60 w1)) /\
    queries (after_hit (advance 60 w1)) = queries w1.
Proof.
  destruct (get_all_properties_empty_store world_empty eq_refl eq_refl eq_refl)
    as (w1 & Hrun & _ & Hnext).
  exists w1. split; [exact Hrun|]. apply Hnext. lia.
Defined.

(* ===================================================================== *)
(** * Deleting the key *)
(* ===================================================================== *)

Lemma present_true w : present w = true <-> is_Some (cache_lookup all_properties w).
Proof. unfold present. by rewrite bool_decide_eq_true. Qed.

Lemma present_after_delete lvl msg w dt :
  present (advance dt (after_delete lvl msg w)) = false.
Proof.
  unfold present, cache_lookup, advance, after_delete. simpl.
  by rewrite lookup_delete_eq.
Qed.

Lemma logged_after_delete lvl msg w :
  logged w (after_delete lvl msg w) = [mk_LogRecord lvl msg].
Proof. unfold logged, after_delete. simpl. by rewrite drop_app_length. Qed.

Lemma coherent_after_delete lvl msg w : coherent (after_delete lvl msg w).
Proof.
  apply coherent_absent. unfold after_delete. simpl. apply lookup_delete_eq.
Qed.

Section Deleting.

Variable w : World.
Hypothesis Hup : redis_fault w = None.

Lemma invalidate_properties_cache_up :
  invalidate_properties_cache w =
  (Ok (present w),
   if present w
   then after_delete INFO
          "Successfully invalidated cache for key 'all_properties'" w
   else after_delete WARNING
          "Failed to invalidate cache for key 'all_properties' (may not exist)" w).
Proof using Hup.
  unfold invalidate_properties_cache, mbind, M_bind.
  rewrite (cache_delete_up w Hup). fold all_properties. fold (present w).
  by destruct (present w).
Qed.

Lemma manual_cache_invalidation_up :
  manual_cache_invalidation w =
  (Ok (present w),
   if present w
   then after_delete INFO
          "Manual cache invalidation: Cache key 'all_properties' removed." w
   else after_delete WARNING
          "Manual cache invalidation: Cache key 'all_properties' not found." w).
Proof using Hup.
  unfold manual_cache_invalidation, mbind, M_bind.
  rewrite (cache_delete_up w Hup). fold all_properties. fold (present w).
  by destruct (present w).
Qed.

Lemma invalidate_cache_on_property_save_up instance created :
  invalidate_cache_on_property_save instance created w =
  (Ok tt,
   after_delete INFO
     (if present w
      then "Cache invalidated: Property '" +:+ Property.title instance +:+
           "' was " +:+ (if created then "created" else "updated") +:+
           ". Cache key 'all_properties' removed from Redis."
      else "Property '" +:+ Property.title instance +:+ "' was " +:+
           (if created then "created" else "updated") +:+
           ". Cache key 'all_properties' was not found (may have already expired).")
     w).
Proof using Hup.
  unfold invalidate_cache_on_property_save, mbind, M_bind.
  rewrite (cache_delete_up w Hup). fold all_properties. fold (present w).
  by destruct (present w).
Qed.

Lemma invalidate_cache_on_property_delete_up instance :
  invalidate_cache_on_property_delete instance w =
  (Ok tt,
   after_delete INFO
     (if present w
      then "Cache invalidated: Property '" +:+ Property.title instance +:+
           "' was deleted. Cache key 'all_properties' removed from Redis."
      else "Property '" +:+ Property.title instance +:+
           "' was deleted. Cache key 'all_properties' was not found (may have already expired).")
     w).
Proof using Hup.
  unfold invalidate_cache_on_property_delete, mbind, M_bind.
  rewrite (cache_delete_up w Hup). fold all_properties. fold (present w).
  by destruct (present w).
Qed.

End Deleting.

(** C3. [invalidate_properties_cache] deletes ['all_properties'] and
    returns whether a value was removed.  On a reachable backend it never
    raises: it returns [True] when the key holds a value and [False] when
    it does not, the key is gone afterwards, and a second call, whenever it
    comes, returns [False]. *)
Theorem invalidate_properties_cache_twice (w : World) :
  redis_fault w = None ->
  exists w1,
    invalidate_properties_cache w =
      (Ok (match cache_lookup all_properties w with
           | Some _ => true
           | None => false
           end), w1) /\
    cache w1 !! all_properties = None /\
    forall dt, exists w2,
      invalidate_properties_cache (advance dt w1) = (Ok false, w2).
Proof.
  intros Hup. rewrite (invalidate_properties_cache_up w Hup).
  eexists. split_and!.
  - f_equal. f_equal. unfold present.
    by destruct (cache_lookup all_properties w).
  - destruct (present w); simpl; apply lookup_delete_eq.
  - intros dt. eexists.
    rewrite invalidate_properties_cache_up by (by destruct (present w)).
    f_equal. f_equal. destruct (present w); apply present_after_delete.
Qed.

Lemma invalidate_properties_cache_twice_witness :
  exists w1 w2,
    invalidate_properties_cache world_stale = (Ok true, w1) /\
    invalidate_properties_cache (advance 0 w1) = (Ok false, w2).
Proof.
  destruct (invalidate_properties_cache_twice world_stale eq_refl)
    as (w1 & Hrun & _ & Hnext).
  destruct (Hnext 0) as (w2 & Hrun2).
  exists w1, w2. split; [exact Hrun|exact Hrun2].
Defined.

(** C9. [get_cache_info] reports the key ['all_properties'], whether a
    value is present, how many items it holds (0 when absent) and the type
    name of the value ([None] when absent); the world it leaves is the one
    it found, cache included. *)
Theorem get_cache_info_read_only (w : World) :
  redis_fault w = None ->
  get_cache_info w =
  (Ok (match cache_lookup all_properties w with
       | Some v => mk_CacheInfo "all_properties" true (len v) (Some "list")
       | None => mk_CacheInfo "all_properties" false 0 None
       end), w).
Proof.
  intros Hup. unfold get_cache_info, mbind, M_bind.
  rewrite (cache_get_up w Hup). fold all_properties.
  by destruct (cache_lookup all_properties w).
Qed.

Lemma get_cache_info_read_only_witness :
  get_cache_info world_stale =
    (Ok (mk_CacheInfo "all_properties" true 1 (Some "list")), world_stale) /\
  get_cache_info world_three =
    (Ok (mk_CacheInfo "all_properties" false 0 None), world_three).
Proof.
  split.
  - exact (get_cache_info_read_only world_stale eq_refl).
  - exact (get_cache_info_read_only world_three eq_refl).
Defined.

(* ===================================================================== *)
(** * Read-after-write *)
(* ===================================================================== *)

Section Mutations.

Variable w : World.
Hypothesis Hup : redis_fault w = None.

(** Creating a row: it is appended under the next primary key and the
    key is deleted from the cache. *)
Lemma Property_objects_create_up title description price location created_at :
  let p := Property.mk (next_id w) title description price location created_at in
  exists w1,
    Property_objects_create title description price location created_at w
      = (Ok p, w1) /\
    table w1 = (table w ++ [p])%list /\
    cache w1 !! all_properties = None /\
    redis_fault w1 = None.
Proof using Hup.
  intros p. unfold Property_objects_create, post_save_send, mbind, M_bind.
  unfold sql_insert. fold p.
  rewrite invalidate_cache_on_property_save_up by done.
  eexists. split_and!; [done|done| |done].
  simpl. apply lookup_delete_eq.
Qed.

(** Saving an instance: every row with its primary key becomes the
    instance (it is appended when there was none) and the key is deleted
    from the cache. *)
Lemma Property_save_up instance :
  exists w1,
    Property_save instance w = (Ok tt, w1) /\
    table w1 =
      (if has_id (Property.id instance) (table w)
       then map (fun r => if Property.id r =? Property.id instance
                          then instance else r) (table w)
       else (map (fun r => if Property.id r =? Property.id instance
                           then instance else r) (table w) ++ [instance])%list) /\
    cache w1 !! all_properties = None /\
    redis_fault w1 = None.
Proof using Hup.
  unfold Property_save, post_save_send, mbind, M_bind, sql_update.
  destruct (has_id (Property.id instance) (table w)).
  - simpl. rewrite invalidate_cache_on_property_save_up by done.
    eexists. split_and!; [done|done| |done].
    simpl. apply lookup_delete_eq.
  - simpl. rewrite invalidate_cache_on_property_save_up by done.
    eexists. split_and!; [done|done| |done].
    simpl. apply lookup_delete_eq.
Qed.

(** Deleting an instance: no row keeps its primary key and the key is
    deleted from the cache. *)
Lemma Property_delete_up instance :
  exists w1,
    Property_delete instance w = (Ok tt, w1) /\
    table w1 = filter (fun r => Property.id r ≠ Property.id instance) (table w) /\
    cache w1 !! all_properties = None /\
    redis_fault w1 = None.
Proof using Hup.
  unfold Property_delete, post_delete_send, mbind, M_bind, sql_delete.
  rewrite invalidate_cache_on_property_delete_up by done.
  eexists. split_and!; [done|done| |done].
  simpl. apply lookup_delete_eq.
Qed.

End Mutations.

Lemma updated_rows_elem (rows : list Property.t) (instance q : Property.t) :
  q ∈ map (fun r => if Property.id r =? Property.id instance then instance else r) rows ->
  Property.id q = Property.id instance -> q = instance.
Proof.
  intros Hq Hid. apply list_elem_of_fmap in Hq as (r & -> & _).
  destruct (Z.eqb_spec (Property.id r) (Property.id instance)); done.
Qed.

Lemma updated_rows_has (rows : list Property.t) (instance : Property.t) :
  has_id (Property.id instance) rows = true ->
  instance ∈ map (fun r => if Property.id r =? Property.id instance then instance else r) rows.
Proof.
  unfold has_id. rewrite existsb_exists. intros (r & Hr & Hid).
  apply list_elem_of_fmap. exists r. rewrite Hid.
  split; [done|]. by apply list_elem_of_In.
Qed.

(** C1. Every mutation of a [Property] that reaches the Store is followed,
    in the same call, by its signal handler deleting ['all_properties'],
    and every later [get_all_properties], whatever the cache held before
    the mutation and however long after it, reflects the mutation: a
    created property is in the result, a saved property is in the result
    and is the only row under its id (so its new title is the one
    listed), and no row of the result has the id of a deleted one. *)
Theorem read_after_write (w : World) :
  redis_fault w = None ->
  (forall title description price location created_at waits,
     exists p w1,
       Property_objects_create title description price location created_at w
         = (Ok p, w1) /\
       Property.title p = title /\
       cache w1 !! all_properties = None /\
       Forall (fun r => exists l, r = Ok l /\ p ∈ l) (fetch_each waits w1)) /\
  (forall instance waits,
     exists w1,
       Property_save instance w = (Ok tt, w1) /\
       cache w1 !! all_properties = None /\
       Forall (fun r => exists l, r = Ok l /\ instance ∈ l /\
                 forall q, q ∈ l -> Property.id q = Property.id instance ->
                           q = instance /\
                           Property.title q = Property.title instance)
              (fetch_each waits w1)) /\
  (forall instance waits,
     exists w1,
       Property_delete instance w = (Ok tt, w1) /\
       cache w1 !! all_properties = None /\
       Forall (fun r => exists l, r = Ok l /\ (instance ∉ l) /\
                 forall q, q ∈ l -> Property.id q <> Property.id instance)
              (fetch_each waits w1)).
Proof.
  intros Hup. split_and!.
  - intros title description price location created_at waits.
    destruct (Property_objects_create_up w Hup title description price
                location created_at) as (w1 & Hrun & Htab & Hkey & Hup1).
    eexists _, w1. split_and!; [exact Hrun|done|done|].
    eapply Forall_impl; [apply fetch_each_coherent; auto using coherent_absent|].
    intros r ->. eexists. split; [done|].
    apply select_ordered_elem. rewrite Htab, elem_of_app, list_elem_of_singleton.
    by right.
  - intros instance waits.
    destruct (Property_save_up w Hup instance) as (w1 & Hrun & Htab & Hkey & Hup1).
    exists w1. split_and!; [exact Hrun|done|].
    eapply Forall_impl; [apply fetch_each_coherent; auto using coherent_absent|].
    intros r ->. eexists. split; [done|]. split.
    + apply select_ordered_elem. rewrite Htab.
      destruct (has_id (Property.id instance) (table w)) eqn:Hhas.
      * by apply updated_rows_has.
      * rewrite elem_of_app, list_elem_of_singleton. by right.
    + intros q Hq Hid. apply (proj1 (select_ordered_elem _ _)) in Hq. rewrite Htab in Hq.
      assert (q = instance) as ->; [|done].
      destruct (has_id (Property.id instance) (table w)).
      * exact (updated_rows_elem (table w) instance q Hq Hid).
      * apply elem_of_app in Hq as [Hq|Hq].
        -- exact (updated_rows_elem (table w) instance q Hq Hid).
        -- by apply list_elem_of_singleton in Hq.
  - intros instance waits.
    destruct (Property_delete_up w Hup instance) as (w1 & Hrun & Htab & Hkey & Hup1).
    exists w1. split_and!; [exact Hrun|done|].
    eapply Forall_impl; [apply fetch_each_coherent; auto using coherent_absent|].
    intros r ->. eexists. split; [done|].
    assert (Hids : forall q, q ∈ listing (table w1) ->
                             Property.id q <> Property.id instance).
    { intros q Hq. apply (proj1 (select_ordered_elem _ _)) in Hq. rewrite Htab in Hq.
      by apply list_elem_of_filter in Hq as [Hq _]. }
    split; [|done]. intros Hin. by apply (Hids instance Hin).
Qed.

Lemma read_after_write_witness :
  (exists p w1,
     Property_objects_create "Cottage" "By the lake" (mk_Decimal false 4500000 (-2))
       "Naivasha" (utc 2024 4 2 9 0 0) world_stale = (Ok p, w1) /\
     Property.title p = "Cottage" /\
     Forall (fun r => exists l, r = Ok l /\ p ∈ l) (fetch_each [0; 5000] w1)) /\
  (exists w1,
     Property_save flat_renamed world_stale = (Ok tt, w1) /\
     Forall (fun r => exists l, r = Ok l /\ flat_renamed ∈ l /\
               forall q, q ∈ l -> Property.id q = 1 ->
                         q = flat_renamed /\ Property.title q = "Flat (sold)")
            (fetch_each [0; 5000] w1)) /\
  (exists w1,
     Property_delete flat world_stale = (Ok tt, w1) /\
     Forall (fun r => exists l, r = Ok l /\ (flat ∉ l) /\
               forall q, q ∈ l -> Property.id q <> 1)
            (fetch_each [0; 5000] w1)).
Proof.
  destruct (read_after_write world_stale eq_refl) as (Hcreate & Hsave & Hdelete).
  split_and!.
  - destruct (Hcreate "Cottage" "By the lake" (mk_Decimal false 4500000 (-2))
                "Naivasha" (utc 2024 4 2 9 0 0) [0; 5000])
      as (p & w1 & Hrun & Htitle & _ & Hall).
    exists p, w1. auto.
  - destruct (Hsave flat_renamed [0; 5000]) as (w1 & Hrun & _ & Hall).
    exists w1. auto.
  - destruct (Hdelete flat [0; 5000]) as (w1 & Hrun & _ & Hall).
    exists w1. auto.
Defined.

(* ===================================================================== *)
(** * Cache metrics *)
(* ===================================================================== *)

Lemma overflow_threshold_large : 2 <= overflow_threshold.
Proof. by vm_compute. Qed.

(** A count that is part of a positive total divides without error. *)
Lemma int_truediv_part (count total : Z) :
  0 <= count <= total -> 0 < total ->
  int_truediv count total = Ok (quotient count total).
Proof.
  intros Hc Ht. unfold int_truediv.
  destruct (Z.eqb_spec total 0); [lia|].
  pose proof overflow_threshold_large.
  destruct (Z.leb_spec (overflow_threshold * Z.abs total) (Z.abs count)); [nia|done].
Qed.

Lemma ratio_percent_part (count total : Z) :
  0 <= count <= total ->
  ratio_percent count total =
  Ok (if 0 <? total
      then PyFloat (float_mul (quotient count total) (float_of_int 100))
      else PyInt 0).
Proof.
  intros Hc. unfold ratio_percent.
  destruct (Z.ltb_spec 0 total); [|done].
  by rewrite int_truediv_part.
Qed.

Lemma get_redis_cache_metrics_down (w : World) (msg : string) :
  redis_fault w = Some msg ->
  get_redis_cache_metrics w =
  (Ok (error_metrics msg),
   with_log (log w ++ [mk_LogRecord ERROR
                         ("Failed to retrieve Redis cache metrics: " +:+ msg)]) w).
Proof.
  intros Hdown.
  unfold get_redis_cache_metrics, try_except, mbind, M_bind,
    get_redis_connection, redis_connection_info, redis_command.
  simpl. by rewrite Hdown.
Qed.

(** X3. Whatever happens inside, the caller of
    [get_redis_cache_metrics] gets a record: no state of the backend makes
    it raise. *)
Lemma get_redis_cache_metrics_total (w : World) :
  exists m w1, get_redis_cache_metrics w = (Ok m, w1).
Proof.
  unfold get_redis_cache_metrics, try_except, mbind, M_bind,
    get_redis_connection, redis_connection_info, redis_command, eval.
  simpl. destruct (redis_fault w); [by eauto|].
  destruct (ratio_percent _ _); [|by eauto].
  destruct (ratio_percent _ _); by eauto.
Qed.

(** C4. When the backend cannot be reached, [get_redis_cache_metrics]
    catches the error and returns a record whose numeric fields are all
    zero, whose efficiency label is ["Error"] and whose ['error'] entry is
    the description of the failure, not empty when the failure has one; an
    error record is logged and nothing is raised to the caller. *)
Theorem get_redis_cache_metrics_failure_isolated (w : World) (msg : string) :
  redis_fault w = Some msg ->
  msg <> "" ->
  exists m w1,
    get_redis_cache_metrics w = (Ok m, w1) /\
    keyspace_hits m = 0 /\ keyspace_misses m = 0 /\ total_requests m = 0 /\
    number_is_zero (hit_ratio m) = true /\
    number_is_zero (miss_ratio m) = true /\
    used_memory m = 0 /\ connected_clients m = 0 /\
    total_commands_processed m = 0 /\ instantaneous_ops_per_sec m = 0 /\
    cache_efficiency m = "Error" /\
    (exists description, error m = Some description /\
                         description = msg /\ description <> "") /\
    map levelname (logged w w1) = [ERROR].
Proof.
  intros Hdown Hmsg. eexists _, _.
  rewrite (get_redis_cache_metrics_down w msg Hdown).
  split_and!; try done.
  - by exists msg.
  - unfold logged. simpl. by rewrite drop_app_length.
Qed.

Lemma get_redis_cache_metrics_failure_isolated_witness :
  exists m w1,
    get_redis_cache_metrics world_down = (Ok m, w1) /\
    total_requests m = 0 /\
    number_is_zero (hit_ratio m) = true /\
    cache_efficiency m = "Error" /\
    (exists description, error m = Some description /\
       description = "Error 111 connecting to localhost:6379. Connection refused." /\
       description <> "").
Proof.
  destruct (get_redis_cache_metrics_failure_isolated world_down
              "Error 111 connecting to localhost:6379. Connection refused."
              eq_refl ltac:(discriminate))
    as (m & w1 & Hrun & _ & _ & Htotal & Hhit & _ & _ & _ & _ & _ & Heff & Herr & _).
  exists m, w1. auto.
Defined.

Lemma get_redis_cache_metrics_up (w : World) (hits misses : Z) :
  redis_fault w = None ->
  default 0 (ri_keyspace_hits (redis_info w)) = hits ->
  default 0 (ri_keyspace_misses (redis_info w)) = misses ->
  0 <= hits -> 0 <= misses ->
  exists w1,
    get_redis_cache_metrics w = (Ok (success_metrics (redis_info w) hits misses), w1) /\
    map levelname (logged w w1) = [INFO].
Proof.
  intros Hup Hh Hm Hh0 Hm0.
  unfold get_redis_cache_metrics, try_except, mbind, M_bind,
    get_redis_connection, redis_connection_info, redis_command, eval.
  simpl. rewrite Hup, Hh, Hm.
  rewrite !ratio_percent_part by lia.
  eexists. split; [reflexivity|].
  unfold logged. simpl. by rewrite drop_app_length.
Qed.

(** C5. On the success path [get_redis_cache_metrics] computes
    [total_requests = keyspace_hits + keyspace_misses], the hit and miss
    ratios [count / total * 100] (the [int] 0 when the total is 0, without
    a division error) and labels the efficiency by the thresholds 90, 70
    and 50 on the hit ratio; the record carries the two ratios through
    [round(_, 2)].  90 hits and 10 misses give the ratio 90.0 and
    ["Excellent"]; no hits and no misses give two ratios of 0. *)
Theorem get_redis_cache_metrics_arithmetic (w : World) (hits misses : Z) :
  redis_fault w = None ->
  default 0 (ri_keyspace_hits (redis_info w)) = hits ->
  default 0 (ri_keyspace_misses (redis_info w)) = misses ->
  0 <= hits -> 0 <= misses ->
  exists m w1 hit_percent miss_percent,
    get_redis_cache_metrics w = (Ok m, w1) /\
    error m = None /\
    keyspace_hits m = hits /\ keyspace_misses m = misses /\
    total_requests m = hits + misses /\
    ratio_percent hits (hits + misses) = Ok hit_percent /\
    ratio_percent misses (hits + misses) = Ok miss_percent /\
    hit_percent =
      (if 0 <? hits + misses
       then PyFloat (float_mul (quotient hits (hits + misses)) (float_of_int 100))
       else PyInt 0) /\
    miss_percent =
      (if 0 <? hits + misses
       then PyFloat (float_mul (quotient misses (hits + misses)) (float_of_int 100))
       else PyInt 0) /\
    hit_ratio m = round2 hit_percent /\
    miss_ratio m = round2 miss_percent /\
    cache_efficiency m =
      (if number_geb hit_percent 90 then "Excellent"
       else if number_geb hit_percent 70 then "Good"
       else if number_geb hit_percent 50 then "Fair"
       else "Poor") /\
    (hits = 90 -> misses = 10 ->
       hit_percent = PyFloat (float_of_int 90) /\
       hit_ratio m = PyFloat (float_of_int 90) /\
       miss_ratio m = PyFloat (float_of_int 10) /\
       cache_efficiency m = "Excellent") /\
    (hits = 0 -> misses = 0 ->
       hit_ratio m = PyInt 0 /\ miss_ratio m = PyInt 0).
Proof.
  intros Hup Hh Hm Hh0 Hm0.
  destruct (get_redis_cache_metrics_up w hits misses Hup Hh Hm Hh0 Hm0)
    as (w1 & Hrun & _).
  exists (success_metrics (redis_info w) hits misses), w1,
    (percent hits (hits + misses)), (percent misses (hits + misses)).
  split_and!; try done.
  - apply ratio_percent_part. lia.
  - apply ratio_percent_part. lia.
  - intros -> ->. by vm_compute.
  - intros -> ->. by vm_compute.
Qed.

Lemma get_redis_cache_metrics_arithmetic_witness :
  exists m w1,
    get_redis_cache_metrics (world_counters 90 10) = (Ok m, w1) /\
    total_requests m = 100 /\
    hit_ratio m = PyFloat (float_of_int 90) /\
    miss_ratio m = PyFloat (float_of_int 10) /\
    cache_efficiency m = "Excellent".
Proof.
  destruct (get_redis_cache_metrics_arithmetic (world_counters 90 10) 90 10
              eq_refl eq_refl eq_refl ltac:(lia) ltac:(lia))
    as (m & w1 & hp & mp & Hrun & _ & _ & _ & Htotal & _ & _ & _ & _ & _ & _ & _
        & Hex & _).
  destruct (Hex eq_refl eq_refl) as (_ & Hhit & Hmiss & Heff).
  exists m, w1. auto.
Defined.

(** Rounding to the nearest integer is off by at most one half. *)
Lemma div_half_even_nearest (n d : Z) :
  0 < d -> Z.abs (2 * (div_half_even n d * d - n)) <= d.
Proof.
  intros Hd. unfold div_half_even.
  pose proof (Z.div_mod n d ltac:(lia)) as Hdm.
  pose proof (Z.mod_pos_bound n d Hd) as Hr.
  destruct (Z.compare_spec (2 * (n mod d)) d) as [Heq|Hlt|Hgt].
  - destruct (Z.even (n / d)); nia.
  - nia.
  - nia.
Qed.

(** [hundredths m e] is the integer nearest to [100 * m * 2^e]. *)
Lemma hundredths_nearest (m : positive) (e : Z) :
  if 0 <=? e
  then hundredths m e = Zpos m * 100 * 2 ^ e
  else Z.abs (2 * (hundredths m e * 2 ^ (- e) - Zpos m * 100)) <= 2 ^ (- e).
Proof.
  unfold hundredths. destruct (Z.leb_spec 0 e); [done|].
  apply div_half_even_nearest. apply Z.pow_pos_nonneg; lia.
Qed.

(** Counters whose exact hit ratio has 46 decimal digits and is a double:
    it is the double nearest to 33.33, which [round(_, 2)] returns, so
    the record holds the exact quotient. *)
Lemma exact_ratio_with_many_decimals :
  exists m w1,
    get_redis_cache_metrics (world_counters 4690780486883082 9382968348649718)
      = (Ok m, w1) /\
    more_than_two_decimals 4690780486883082
      (4690780486883082 + 9382968348649718) /\
    hit_ratio m = PyFloat (quotient 3333 100) /\
    is_exact_percentage (hit_ratio m) 4690780486883082
      (4690780486883082 + 9382968348649718) /\
    ~ rounding_always_visible.
Proof.
  pose (w := world_counters 4690780486883082 9382968348649718).
  pose (m := success_metrics (redis_info w) 4690780486883082 9382968348649718).
  assert (Hrun : get_redis_cache_metrics w = (Ok m, snd (get_redis_cache_metrics w)))
    by (vm_compute; reflexivity).
  assert (Hmany : more_than_two_decimals 4690780486883082
                    (4690780486883082 + 9382968348649718))
    by (vm_compute; discriminate).
  assert (Hexact : is_exact_percentage (hit_ratio m) 4690780486883082
                     (4690780486883082 + 9382968348649718))
    by (vm_compute; reflexivity).
  exists m, (snd (get_redis_cache_metrics w)).
  split_and!; [exact Hrun|exact Hmany|vm_compute; reflexivity|exact Hexact|].
  intros Hclaim.
  apply (Hclaim w (snd (get_redis_cache_metrics w)) 4690780486883082
           9382968348649718 m eq_refl eq_refl eq_refl
           ltac:(lia) ltac:(lia) ltac:(lia) Hrun Hmany Hexact).
Qed.

(** C10 (amended). The ratios in the success record are not the
    quotients themselves but those values through [round(_, 2)]: the
    exact binary value is rounded to the nearest hundredth and that
    decimal is converted back to a double.  The returned ratio can
    therefore differ from the exact quotient: for 1 hit and 2 misses the
    record holds the doubles nearest to 33.33 and 66.67, which differ
    from the computed ratios and from the exact quotients 100/3 and
    200/3.  It does not differ for every input whose exact ratio has more
    than two decimal digits: for 4690780486883082 hits and
    9382968348649718 misses the exact ratio is the double nearest to
    33.33, and the record holds it. *)
Theorem metrics_ratios_are_rounded (w : World) (hits misses : Z) :
  redis_fault w = None ->
  default 0 (ri_keyspace_hits (redis_info w)) = hits ->
  default 0 (ri_keyspace_misses (redis_info w)) = misses ->
  0 <= hits -> 0 <= misses -> 0 < hits + misses ->
  exists m w1 x y,
    get_redis_cache_metrics w = (Ok m, w1) /\
    ratio_percent hits (hits + misses) = Ok (PyFloat x) /\
    ratio_percent misses (hits + misses) = Ok (PyFloat y) /\
    hit_ratio m = PyFloat (float_round2 x) /\
    miss_ratio m = PyFloat (float_round2 y) /\
    (forall mx e, x = S754_finite false mx e ->
       float_round2 x = quotient (hundredths mx e) 100) /\
    (hits = 1 -> misses = 2 ->
       hit_ratio m = PyFloat (quotient 3333 100) /\
       miss_ratio m = PyFloat (quotient 6667 100) /\
       hit_ratio m <> PyFloat x /\
       miss_ratio m <> PyFloat y /\
       fst (float_ratio (float_round2 x)) * 3 <>
         100 * snd (float_ratio (float_round2 x)) /\
       fst (float_ratio (float_round2 y)) * 3 <>
         200 * snd (float_ratio (float_round2 y))) /\
    (hits = 4690780486883082 -> misses = 9382968348649718 ->
       more_than_two_decimals hits (hits + misses) /\
       hit_ratio m = PyFloat (quotient 3333 100) /\
       is_exact_percentage (hit_ratio m) hits (hits + misses)).
Proof.
  intros Hup Hh Hm Hh0 Hm0 Ht.
  destruct (get_redis_cache_metrics_up w hits misses Hup Hh Hm Hh0 Hm0)
    as (w1 & Hrun & _).
  exists (success_metrics (redis_info w) hits misses), w1,
    (float_mul (quotient hits (hits + misses)) (float_of_int 100)),
    (float_mul (quotient misses (hits + misses)) (float_of_int 100)).
  assert (Hpos : (0 <? hits + misses) = true) by (apply Z.ltb_lt; lia).
  split_and!; try done.
  - rewrite ratio_percent_part by lia. by rewrite Hpos.
  - rewrite ratio_percent_part by lia. by rewrite Hpos.
  - simpl. unfold percent. by rewrite Hpos.
  - simpl. unfold percent. by rewrite Hpos.
  - by intros mx e ->.
  - intros -> ->. by vm_compute.
  - intros -> ->.
    split_and!; [vm_compute; discriminate|vm_compute; reflexivity
                |vm_compute; reflexivity].
Qed.

Lemma metrics_ratios_are_rounded_witness :
  exists m w1 x,
    get_redis_cache_metrics (world_counters 1 2) = (Ok m, w1) /\
    ratio_percent 1 3 = Ok (PyFloat x) /\
    hit_ratio m = PyFloat (quotient 3333 100) /\
    hit_ratio m <> PyFloat x.
Proof.
  destruct (metrics_ratios_are_rounded (world_counters 1 2) 1 2
              eq_refl eq_refl eq_refl ltac:(lia) ltac:(lia) ltac:(lia))
    as (m & w1 & x & y & Hrun & Hx & _ & _ & _ & _ & Hex & _).
  destruct (Hex eq_refl eq_refl) as (Hhit & _ & Hne & _).
  exists m, w1, x. auto.
Defined.

(* ===================================================================== *)
(** * The JSON endpoint *)
(* ===================================================================== *)

Lemma append_records_spec (properties : list Property.t) : forall acc,
  append_records properties acc = (acc ++ map property_record properties)%list.
Proof.
  induction properties as [|p ps IH]; intros acc; simpl.
  - by rewrite app_nil_r.
  - by rewrite IH, <-app_assoc.
Qed.

(** C7. For the sequence [get_all_properties] returns, [property_list]
    answers with the JSON object [{properties, count, cached}]:
    [properties] holds one record per property, in the same order, with
    the fields [id], [title], [description], [price] (the string of the
    decimal), [location] and [created_at] (the ISO 8601 string);
    [count] is the length of that list and [cached] is [true]. *)
Theorem property_list_payload (request : HttpRequest) (w w1 : World)
    (properties : list Property.t) :
  get_all_properties w = (Ok properties, w1) ->
  exists items,
    property_list request w =
      (Ok (mk_JsonResponse 200 "application/json"
             (JObj [("properties", JArr items);
                    ("count", JNum (len items));
                    ("cached", JBool true)])), w1) /\
    length items = length properties /\
    len items = len properties /\
    forall (i : nat) (p : Property.t),
      properties !! i = Some p ->
      items !! i =
        Some (JObj [("id", JNum (Property.id p));
                    ("title", JStr (Property.title p));
                    ("description", JStr (Property.description p));
                    ("price", JStr (str_Decimal (Property.price p)));
                    ("location", JStr (Property.location p));
                    ("created_at", JStr (isoformat (Property.created_at p)))]).
Proof.
  intros Hrun. exists (map property_record properties).
  unfold property_list, mbind, M_bind. rewrite Hrun.
  rewrite append_records_spec. simpl.
  split_and!; try done.
  - by rewrite length_map.
  - unfold len. by rewrite length_map.
  - intros i p Hp.
    change (map property_record properties) with (property_record <$> properties).
    by rewrite list_lookup_fmap, Hp.
Qed.

Lemma property_list_payload_witness :
  exists w1,
    property_list (mk_HttpRequest "GET" "/properties/") world_three =
      (Ok (mk_JsonResponse 200 "application/json"
             (JObj [("properties",
                     JArr [JObj [("id", JNum 3); ("title", JStr "Villa");
                                 ("description", JStr "Sea view");
                                 ("price", JStr "1200000.00");
                                 ("location", JStr "Kisumu");
                                 ("created_at", JStr "2024-03-09T17:45:12+00:00")];
                           JObj [("id", JNum 2); ("title", JStr "House");
                                 ("description", JStr "Garden");
                                 ("price", JStr "99500.50");
                                 ("location", JStr "Mombasa");
                                 ("created_at", JStr "2024-02-01T08:00:00+00:00")];
                           JObj [("id", JNum 1); ("title", JStr "Flat");
                                 ("description", JStr "Two rooms");
                                 ("price", JStr "250000.00");
                                 ("location", JStr "Nairobi");
                                 ("created_at", JStr "2024-01-05T10:30:00+00:00")]]);
                    ("count", JNum 3);
                    ("cached", JBool true)])), w1).
Proof.
  destruct (property_list_payload (mk_HttpRequest "GET" "/properties/")
              world_three (after_miss world_three) [villa; house; flat]
              ltac:(by vm_compute))
    as (items & Hrun & Hlen & _ & Hitems).
  exists (after_miss world_three). rewrite Hrun.
  destruct items as [|i1 [|i2 [|i3 [|]]]]; try discriminate Hlen.
  pose proof (Hitems 0%nat villa eq_refl) as H1.
  pose proof (Hitems 1%nat house eq_refl) as H2.
  pose proof (Hitems 2%nat flat eq_refl) as H3.
  simpl in H1, H2, H3.
  injection H1 as ->. injection H2 as ->. injection H3 as ->.
  reflexivity.
Defined.

(* ===================================================================== *)
(** * Deleting a key that is not there *)
(* ===================================================================== *)

(** The save handler does not: in a world with an empty cache it logs
    the already-absent message at [INFO]. *)
Lemma save_handler_logs_absent_at_info :
  redis_fault world_three = None /\
  cache_lookup all_properties world_three = None /\
  logged world_three
    (snd (invalidate_cache_on_property_save villa false world_three)) =
    [mk_LogRecord INFO
       "Property 'Villa' was updated. Cache key 'all_properties' was not found (may have already expired)."] /\
  ~ logs_absent_at_warning (invalidate_cache_on_property_save villa false).
Proof.
  split_and!; try reflexivity.
  intros Hclaim. specialize (Hclaim world_three eq_refl eq_refl).
  vm_compute in Hclaim. discriminate Hclaim.
Qed.

(** C8 (amended). Deleting ['all_properties'] when it is absent is not an
    error for any of the four operations.  [invalidate_properties_cache]
    and [manual_cache_invalidation] return [False] and log the case at
    warning severity (the deleted case at info).  The two signal handlers
    log one record per call, always at info severity: the already-absent
    message when the key is absent, the deleted message when it was
    there. *)
Theorem absent_key_deletion (w : World) (instance : Property.t) (created : bool) :
  redis_fault w = None ->
  (exists w1 msg,
     invalidate_cache_on_property_save instance created w = (Ok tt, w1) /\
     logged w w1 = [mk_LogRecord INFO msg] /\
     (cache_lookup all_properties w = None ->
      msg = "Property '" +:+ Property.title instance +:+ "' was " +:+
            (if created then "created" else "updated") +:+
            ". Cache key 'all_properties' was not found (may have already expired).")) /\
  (exists w1 msg,
     invalidate_cache_on_property_delete instance w = (Ok tt, w1) /\
     logged w w1 = [mk_LogRecord INFO msg] /\
     (cache_lookup all_properties w = None ->
      msg = "Property '" +:+ Property.title instance +:+
            "' was deleted. Cache key 'all_properties' was not found (may have already expired).")) /\
  (exists w1 removed lvl msg,
     invalidate_properties_cache w = (Ok removed, w1) /\
     logged w w1 = [mk_LogRecord lvl msg] /\
     lvl = (if removed then INFO else WARNING) /\
     (cache_lookup all_properties w = None -> removed = false /\ lvl = WARNING)) /\
  (exists w1 removed lvl msg,
     manual_cache_invalidation w = (Ok removed, w1) /\
     logged w w1 = [mk_LogRecord lvl msg] /\
     lvl = (if removed then INFO else WARNING) /\
     (cache_lookup all_properties w = None -> removed = false /\ lvl = WARNING)).
Proof.
  intros Hup.
  assert (Habsent : cache_lookup all_properties w = None -> present w = false).
  { unfold present. by intros ->. }
  split_and!.
  - rewrite (invalidate_cache_on_property_save_up w Hup).
    eexists _, _. split_and!; [done|apply logged_after_delete|].
    intros Hnone. by rewrite (Habsent Hnone).
  - rewrite (invalidate_cache_on_property_delete_up w Hup).
    eexists _, _. split_and!; [done|apply logged_after_delete|].
    intros Hnone. by rewrite (Habsent Hnone).
  - rewrite (invalidate_properties_cache_up w Hup).
    destruct (present w) eqn:Hp; eexists _, _, _, _;
      (split_and!; [done|apply logged_after_delete|done|]);
      intros Hnone; specialize (Habsent Hnone); by try congruence.
  - rewrite (manual_cache_invalidation_up w Hup).
    destruct (present w) eqn:Hp; eexists _, _, _, _;
      (split_and!; [done|apply logged_after_delete|done|]);
      intros Hnone; specialize (Habsent Hnone); by try congruence.
Qed.

Lemma absent_key_deletion_witness :
  (exists w1,
     invalidate_cache_on_property_save villa false world_three = (Ok tt, w1) /\
     map levelname (logged world_three w1) = [INFO]) /\
  (exists w1,
     invalidate_properties_cache world_three = (Ok false, w1) /\
     map levelname (logged world_three w1) = [WARNING]).
Proof.
  destruct (absent_key_deletion world_three villa false eq_refl)
    as (Hsave & _ & Hinv & _).
  split.
  - destruct Hsave as (w1 & msg & Hrun & Hlog & _).
    exists w1. rewrite Hlog. auto.
  - destruct Hinv as (w1 & removed & lvl & msg & Hrun & Hlog & _ & Habs).
    destruct (Habs eq_refl) as [-> ->].
    exists w1. rewrite Hlog. auto.
Defined.

(* ===================================================================== *)
(** * Further properties *)
(* ===================================================================== *)

(** X1. A listing written by a miss is gone once more than 3600 seconds
    have passed: a call made later than that misses again and queries the
    Store a second time. *)
Lemma listing_expires (w : World) (dt : Z) :
  redis_fault w = None ->
  cache_lookup all_properties w = None ->
  3600 < dt ->
  exists w1 w2,
    get_all_properties w = (Ok (listing (table w)), w1) /\
    cache_lookup all_properties (advance dt w1) = None /\
    get_all_properties (advance dt w1) = (Ok (listing (table w)), w2) /\
    queries w2 = S (S (queries w)).
Proof.
  intros Hup Hmiss Hdt. exists (after_miss w).
  assert (Hgone : cache_lookup all_properties (advance dt (after_miss w)) = None).
  { rewrite cache_lookup_after_miss. by destruct (Z.leb_spec dt 3600); [lia|]. }
  eexists. split_and!.
  - by apply get_all_properties_miss.
  - done.
  - by rewrite (get_all_properties_miss (advance dt (after_miss w)) Hup Hgone).
  - done.
Qed.

Lemma listing_expires_witness :
  exists w1 w2,
    get_all_properties world_three = (Ok [villa; house; flat], w1) /\
    cache_lookup all_properties (advance 3601 w1) = None /\
    get_all_properties (advance 3601 w1) = (Ok [villa; house; flat], w2) /\
    queries w2 = 2%nat.
Proof.
  exact (listing_expires world_three 3601 eq_refl eq_refl ltac:(lia)).
Defined.

(** X2. Outside the metrics path an unreachable backend is not handled:
    the three cache-aside functions raise the client's error and leave
    the world as it was. *)
Lemma unreachable_backend_propagates (w : World) (msg : string) :
  redis_fault w = Some msg ->
  get_all_properties w = (Err (ConnectionError msg), w) /\
  invalidate_properties_cache w = (Err (ConnectionError msg), w) /\
  get_cache_info w = (Err (ConnectionError msg), w).
Proof.
  intros Hdown.
  unfold get_all_properties, invalidate_properties_cache, get_cache_info,
    mbind, M_bind, cache_get, cache_delete, redis_command.
  by rewrite Hdown.
Qed.

Lemma unreachable_backend_propagates_witness :
  get_all_properties world_down =
    (Err (ConnectionError
            "Error 111 connecting to localhost:6379. Connection refused."),
     world_down).
Proof.
  exact (proj1 (unreachable_backend_propagates world_down _ eq_refl)).
Defined.

(** A hit is not checked against the Store: a stale listing is returned
    as it is. *)
Lemma stale_listing_is_served :
  exists w1,
    get_all_properties world_stale = (Ok [flat], w1) /\
    listing (table world_stale) = [villa; house; flat] /\
    queries w1 = queries world_stale.
Proof. eexists. by vm_compute. Qed.

Lemma upto_elem (n : nat) (k : Z) : 0 <= k <= Z.of_nat n -> In k (upto n).
Proof.
  intros Hk. unfold upto. apply in_map_iff. exists (Z.to_nat k).
  split; [lia|]. apply in_seq. lia.
Qed.

Lemma labels_agree_upto_elem (n : nat) (hits misses : Z) :
  labels_agree_upto n = true ->
  0 <= hits <= Z.of_nat n -> 0 <= misses <= Z.of_nat n ->
  efficiency_label (percent hits (hits + misses)) = exact_label hits misses.
Proof.
  unfold labels_agree_upto. intros Hall Hh Hm.
  rewrite forallb_forall in Hall.
  specialize (Hall hits (upto_elem n hits Hh)).
  rewrite forallb_forall in Hall.
  specialize (Hall misses (upto_elem n misses Hm)).
  by apply String.eqb_eq.
Qed.

Lemma labels_agree_100 : labels_agree_upto 100 = true.
Proof. vm_compute. reflexivity. Qed.

(** X4. For counters up to 100 each, the label computed on doubles is the
    one the thresholds 90, 70 and 50 give on the exact quotient. *)
Lemma efficiency_label_exact (hits misses : Z) :
  0 <= hits <= 100 -> 0 <= misses <= 100 ->
  efficiency_label (percent hits (hits + misses)) = exact_label hits misses.
Proof.
  intros Hh Hm.
  apply (labels_agree_upto_elem 100 hits misses labels_agree_100); lia.
Qed.

Lemma efficiency_label_exact_witness :
  efficiency_label (percent 7 10) = "Good" /\
  efficiency_label (percent 69 100) = "Fair".
Proof.
  split.
  - exact (efficiency_label_exact 7 3 ltac:(lia) ltac:(lia)).
  - exact (efficiency_label_exact 69 31 ltac:(lia) ltac:(lia)).
Defined.

(* ===================================================================== *)
(** * The strings of the payload *)
(* ===================================================================== *)
Lemma str_length_app (s1 s2 : string) :
  String.length (s1 +:+ s2) = (String.length s1 + String.length s2)%nat.
Proof. induction s1 as [|c s1 IH]; simpl; [done|]. by rewrite IH. Qed.

Lemma zeros_length (k : nat) : String.length (zeros k) = k.
Proof. induction k as [|k IH]; simpl; [done|]. by rewrite IH. Qed.

Lemma str_drop_length (k : nat) (s : string) :
  String.length (str_drop k s) = (String.length s - k)%nat.
Proof.
  revert s. induction k as [|k IH]; intros [|c s]; simpl; auto.
Qed.

(** The digits of a number below [10^k] are at most [k]. *)
Lemma pretty_N_go_length (k : nat) : forall (x : N) (s : string),
  (x < 10 ^ N.of_nat k)%N ->
  (String.length (pretty_N_go x s) <= k + String.length s)%nat.
Proof.
  induction k as [|k IH]; intros x s Hx.
  - assert (x = 0%N) as -> by (simpl in Hx; lia).
    rewrite pretty_N_go_0. lia.
  - destruct (decide (x = 0%N)) as [->|Hne].
    + rewrite pretty_N_go_0. lia.
    + rewrite pretty_N_go_step by lia.
      etrans; [apply IH|simpl; lia].
      rewrite Nat2N.inj_succ, N.pow_succ_r' in Hx.
      apply N.Div0.div_lt_upper_bound. lia.
Qed.

Lemma pretty_N_length (k : nat) (x : N) :
  (0 < k)%nat -> (x < 10 ^ N.of_nat k)%N ->
  (String.length (pretty x) <= k)%nat.
Proof.
  intros Hk Hx. unfold pretty, pretty_N.
  destruct (decide (x = 0%N)); [simpl; lia|].
  etrans; [by apply (pretty_N_go_length k)|simpl; lia].
Qed.

(** A number that fits the width is printed on exactly that many
    characters. *)
Lemma fmt_0d_length (width : nat) (n : N) :
  (0 < width)%nat -> (n < 10 ^ N.of_nat width)%N ->
  String.length (fmt_0d width n) = width.
Proof.
  intros Hw Hn. unfold fmt_0d, zfill.
  pose proof (pretty_N_length width n Hw Hn).
  rewrite str_length_app, zeros_length. lia.
Qed.

Lemma str_app_nil_r (s : string) : s +:+ "" = s.
Proof.
  induction s as [|c s IH]; [done|].
  change (String c (s +:+ "") = String c s). by rewrite IH.
Qed.

Lemma pretty_N_go_grows (k : nat) : forall (x : N) (s : string),
  (x < 10 ^ N.of_nat k)%N ->
  (String.length s <= String.length (pretty_N_go x s))%nat.
Proof.
  induction k as [|k IH]; intros x s Hx.
  - assert (x = 0%N) as -> by (simpl in Hx; lia).
    by rewrite pretty_N_go_0.
  - destruct (decide (x = 0%N)) as [->|Hne].
    + by rewrite pretty_N_go_0.
    + rewrite pretty_N_go_step by lia.
      etrans; [|apply IH]; [simpl; lia|].
      rewrite Nat2N.inj_succ, N.pow_succ_r' in Hx.
      apply N.Div0.div_lt_upper_bound. lia.
Qed.

Lemma pretty_N_nonempty (x : N) : (1 <= String.length (pretty x))%nat.
Proof.
  unfold pretty, pretty_N. destruct (decide (x = 0%N)); [simpl; lia|].
  rewrite pretty_N_go_step by lia.
  etrans; [|apply (pretty_N_go_grows (N.to_nat x))]; [simpl; lia|].
  rewrite N2Nat.id.
  apply N.lt_le_trans with x; [apply N.div_lt; lia|].
  apply N.lt_le_incl, N.pow_gt_lin_r. lia.
Qed.

Lemma str_app_assoc (s1 s2 s3 : string) :
  (s1 +:+ s2) +:+ s3 = s1 +:+ (s2 +:+ s3).
Proof.
  induction s1 as [|c s1 IH]; [done|].
  change (String c ((s1 +:+ s2) +:+ s3) = String c (s1 +:+ (s2 +:+ s3))).
  by rewrite IH.
Qed.

Lemma zeros_snoc (k : nat) : zeros k +:+ "0" = zeros (S k).
Proof.
  induction k as [|k IH]; [done|].
  change (String "0" (zeros k +:+ "0") = String "0" (zeros (S k))).
  by rewrite IH.
Qed.

Lemma str_take_app (s1 s2 : string) :
  str_take (String.length s1) (s1 +:+ s2) = s1.
Proof.
  induction s1 as [|c s1 IH]; [by destruct s2|].
  change (String c (str_take (String.length s1) (s1 +:+ s2)) = String c s1).
  by rewrite IH.
Qed.

Lemma str_drop_app (s1 s2 : string) :
  str_drop (String.length s1) (s1 +:+ s2) = s2.
Proof. induction s1 as [|c s1 IH]; [by destruct s2|exact IH]. Qed.

Lemma digits_length (k : nat) : forall n, String.length (digits k n) = k.
Proof.
  induction k as [|k IH]; intros n; [done|].
  simpl. rewrite str_length_app, IH. simpl. lia.
Qed.

(** The digits written in front of what is already there. *)
Lemma pretty_N_go_app (x : N) : forall s,
  pretty_N_go x s = pretty_N_go x "" +:+ s.
Proof.
  induction (N.lt_wf_0 x) as [x _ IH]. intros s.
  destruct (decide (x = 0%N)) as [->|Hne].
  - by rewrite !pretty_N_go_0.
  - rewrite (pretty_N_go_step x s), (pretty_N_go_step x "") by lia.
    assert (Hlt : (x `div` 10 < x)%N) by (apply N.div_lt; lia).
    rewrite (IH _ Hlt (String _ s)), (IH _ Hlt (String _ "")).
    by rewrite str_app_assoc.
Qed.

Lemma pretty_N_go_snoc (x : N) :
  (0 < x)%N ->
  pretty_N_go x "" =
  pretty_N_go (x `div` 10) "" +:+ String (pretty_N_char (x `mod` 10)) "".
Proof.
  intros Hx. rewrite (pretty_N_go_step x "" Hx). apply pretty_N_go_app.
Qed.

(** A numeral is its leading digits followed by its [k] last ones. *)
Lemma pretty_N_go_split (k : nat) : forall x : N,
  (10 ^ N.of_nat k <= x)%N ->
  pretty_N_go x "" =
  pretty_N_go (x `div` 10 ^ N.of_nat k) "" +:+ digits k (x `mod` 10 ^ N.of_nat k).
Proof.
  induction k as [|k IH]; intros x Hx.
  - simpl. by rewrite N.div_1_r, str_app_nil_r.
  - rewrite Nat2N.inj_succ, N.pow_succ_r' in *.
    pose proof (N.pow_nonzero 10 (N.of_nat k) ltac:(lia)) as Hpow.
    rewrite pretty_N_go_snoc by lia.
    rewrite (IH (x `div` 10)%N)
      by (apply N.div_le_lower_bound; lia).
    rewrite N.Div0.div_div, str_app_assoc. f_equal.
    simpl digits. rewrite N.Div0.mod_mul_r.
    replace ((x `mod` 10 + 10 * (x `div` 10) `mod` 10 ^ N.of_nat k) `div` 10)%N
      with ((x `div` 10) `mod` 10 ^ N.of_nat k)%N.
    2:{ apply (N.div_unique _ 10 _ (x `mod` 10)%N).
        - apply N.mod_lt. lia.
        - lia. }
    replace ((x `mod` 10 + 10 * (x `div` 10) `mod` 10 ^ N.of_nat k) `mod` 10)%N
      with (x `mod` 10)%N.
    2:{ apply (N.mod_unique _ 10 ((x `div` 10) `mod` 10 ^ N.of_nat k)%N).
        - apply N.mod_lt. lia.
        - lia. }
    done.
Qed.

Lemma digits_0 (k : nat) : digits k 0 = zeros k.
Proof.
  induction k as [|k IH]; [done|].
  change (digits k 0 +:+ "0" = zeros (S k)). by rewrite IH, zeros_snoc.
Qed.

(** A number that fits [k] positions: its numeral behind the zeros that
    fill them. *)
Lemma digits_pad (k : nat) : forall x : N,
  (x < 10 ^ N.of_nat k)%N ->
  digits k x =
  zeros (k - String.length (pretty_N_go x "")) +:+ pretty_N_go x "".
Proof.
  induction k as [|k IH]; intros x Hx.
  - assert (x = 0%N) as -> by (simpl in Hx; lia). done.
  - destruct (decide (x = 0%N)) as [->|Hne].
    + rewrite digits_0, pretty_N_go_0. simpl String.length.
      by rewrite Nat.sub_0_r, str_app_nil_r.
    + rewrite Nat2N.inj_succ, N.pow_succ_r' in Hx.
      simpl digits. rewrite IH by (apply N.Div0.div_lt_upper_bound; lia).
      rewrite (pretty_N_go_snoc x) by lia.
      rewrite str_length_app, str_app_assoc. simpl String.length.
      f_equal. f_equal. lia.
Qed.

(** ["%0<k>d"] of a number that fits [k] positions is its [k] digits. *)
Lemma fmt_0d_digits (k : nat) (n : N) :
  (0 < k)%nat -> (n < 10 ^ N.of_nat k)%N -> fmt_0d k n = digits k n.
Proof.
  intros Hk Hn. unfold fmt_0d, zfill, pretty, pretty_N.
  destruct (decide (n = 0%N)) as [->|Hne].
  - rewrite digits_0. destruct k as [|k]; [lia|].
    simpl String.length. replace (S k - 1)%nat with k by lia.
    apply zeros_snoc.
  - symmetry. by apply digits_pad.
Qed.

(** X5. The ISO 8601 string of a valid [datetime] has the fixed layout
    [YYYY-MM-DDTHH:MM:SS]: the year on four digits, then month, day,
    hour, minute and second on two digits each, with the separators
    [-], [-], [T], [:] and [:] between them (19 characters); it is
    followed by [.] and the microseconds on six digits when they are not
    zero, and by [+00:00] when the value is aware. *)
Lemma isoformat_length (d : datetime) :
  dt_valid d ->
  isoformat d =
    digits 4 (dt_year d) +:+ "-" +:+ digits 2 (dt_month d) +:+ "-" +:+
    digits 2 (dt_day d) +:+ "T" +:+
    digits 2 (dt_hour d) +:+ ":" +:+ digits 2 (dt_minute d) +:+ ":" +:+
    digits 2 (dt_second d) +:+
    (if (dt_microsecond d =? 0)%N then ""
     else "." +:+ digits 6 (dt_microsecond d)) +:+
    (if dt_utc d then "+00:00" else "") /\
  String.length (isoformat d) =
  (19 + (if (dt_microsecond d =? 0)%N then 0 else 7) + (if dt_utc d then 6 else 0))%nat.
Proof.
  intros (Hy & Hmo & Hd & Hh & Hmi & Hs & Hus). unfold isoformat.
  rewrite (fmt_0d_digits 4), !(fmt_0d_digits 2), (fmt_0d_digits 6)
    by (simpl; lia).
  split; [done|].
  rewrite !str_length_app, !digits_length.
  destruct (dt_microsecond d =? 0)%N, (dt_utc d); simpl;
    rewrite ?digits_length; lia.
Qed.

(** X6. A decimal with one to six decimal places prints in plain
    notation, without an exponent: the sign, the numeral of the integer
    part of the coefficient's value (["0"] when it is below one), a point,
    and the digits of the fraction on exactly as many positions as there
    are decimal places, zeros included. *)
Lemma str_Decimal_places (d : Decimal) :
  -6 <= dec_exp d < 0 ->
  str_Decimal d =
    (if dec_sign d then "-" else "") +:+
    pretty (dec_coeff d `div` 10 ^ Z.to_N (- dec_exp d))%N +:+ "." +:+
    digits (Z.to_nat (- dec_exp d)) (dec_coeff d `mod` 10 ^ Z.to_N (- dec_exp d))%N.
Proof.
  intros Hexp. unfold str_Decimal.
  pose proof (pretty_N_nonempty (dec_coeff d)) as Hlen.
  set (c := dec_coeff d) in *.
  set (k := Z.to_nat (- dec_exp d)).
  assert (Hk : Z.to_N (- dec_exp d) = N.of_nat k) by (unfold k; lia).
  assert (Hk0 : (0 < k)%nat) by (unfold k; lia).
  rewrite Hk.
  set (int_ := pretty c) in *.
  set (len := Z.of_nat (String.length int_)).
  assert (Hdot : (dec_exp d <=? 0) && (-6 <? dec_exp d + len) = true).
  { apply andb_true_iff. split; [apply Z.leb_le|apply Z.ltb_lt]; lia. }
  rewrite Hdot, Z.eqb_refl.
  cbv beta iota zeta. rewrite str_app_nil_r.
  destruct (N.lt_ge_cases c (10 ^ N.of_nat k)) as [Hsmall|Hbig].
  - pose proof (pretty_N_length k c Hk0 Hsmall) as Hfit. fold int_ in Hfit.
    destruct (Z.leb_spec (dec_exp d + len) 0) as [_|Hgt]; [|unfold len, k in *; lia].
    rewrite N.div_small, N.mod_small by done.
    rewrite <- (fmt_0d_digits k c Hk0 Hsmall). unfold fmt_0d, zfill. fold int_.
    replace (Z.to_nat (- (dec_exp d + len))) with (k - String.length int_)%nat
      by (unfold len, k; lia).
    done.
  - assert (Hc : (0 < c)%N).
    { pose proof (N.pow_nonzero 10 (N.of_nat k) ltac:(lia)). lia. }
    assert (Hq : (0 < c `div` 10 ^ N.of_nat k)%N).
    { apply N.div_str_pos. split; [|done].
      pose proof (N.pow_nonzero 10 (N.of_nat k) ltac:(lia)). lia. }
    pose proof (pretty_N_nonempty (c `div` 10 ^ N.of_nat k)) as Hlead.
    assert (Hint : int_ = pretty (c `div` 10 ^ N.of_nat k)%N +:+
                          digits k (c `mod` 10 ^ N.of_nat k)%N).
    { unfold int_, pretty, pretty_N.
      destruct (decide (c = 0%N)); [lia|].
      destruct (decide (c `div` 10 ^ N.of_nat k = 0)%N); [lia|].
      by apply pretty_N_go_split. }
    set (lead := pretty (c `div` 10 ^ N.of_nat k)%N) in *.
    assert (Hl : len = Z.of_nat (String.length lead) + Z.of_nat k).
    { unfold len. rewrite Hint, str_length_app, digits_length. lia. }
    destruct (Z.leb_spec (dec_exp d + len) 0) as [Hle|_]; [unfold k in *; lia|].
    destruct (Z.leb_spec len (dec_exp d + len)) as [Hle|_]; [lia|].
    replace (Z.to_nat (dec_exp d + len)) with (String.length lead)
      by (unfold k in *; lia).
    by rewrite Hint, str_take_app, str_drop_app.
Qed.

Lemma isoformat_length_witness :
  isoformat (Property.created_at villa) = "2024-03-09T17:45:12+00:00" /\
  String.length (isoformat (Property.created_at villa)) = 25%nat.
Proof.
  apply (isoformat_length (Property.created_at villa)).
  unfold dt_valid. simpl. lia.
Defined.

Lemma str_Decimal_places_witness :
  str_Decimal (Property.price villa) = "1200000.00" /\
  str_Decimal (mk_Decimal true 5 (-2)) = "-0.05".
Proof.
  split.
  - apply (str_Decimal_places (Property.price villa)). simpl. lia.
  - apply (str_Decimal_places (mk_Decimal true 5 (-2))). simpl. lia.
Defined.

(** ** The Python values on concrete inputs *)

Example str_Decimal_two_places :
  str_Decimal (mk_Decimal false 25000000 (-2)) = "250000.00" /\
  str_Decimal (mk_Decimal false 0 (-2)) = "0.00" /\
  str_Decimal (mk_Decimal true 1999 (-2)) = "-19.99".
Proof. by vm_compute. Qed.

Example str_Decimal_scientific :
  str_Decimal (mk_Decimal false 5 (-7)) = "5E-7" /\
  str_Decimal (mk_Decimal false 12345 3) = "1.2345E+7".
Proof. by vm_compute. Qed.

Example isoformat_aware_and_naive :
  isoformat (mk_datetime 2024 1 5 10 30 0 0 true) = "2024-01-05T10:30:00+00:00" /\
  isoformat (mk_datetime 2024 1 5 10 30 0 1234 false) = "2024-01-05T10:30:00.001234".
Proof. by vm_compute. Qed.

Example int_truediv_errors :
  int_truediv 5 0 = Err (ZeroDivisionError "division by zero") /\
  int_truediv overflow_threshold 1 =
    Err (OverflowError "integer division result too large for a float") /\
  quotient overflow_threshold 1 = S754_infinity false /\
  int_truediv (overflow_threshold - 1) 1 =
    Ok (S754_finite false 9007199254740991 971).
Proof. by vm_compute. Qed.

Example round2_ties_and_format :
  float_round2 (quotient 1 8) = quotient 12 100 /\
  float_fmt_2f (quotient 1 8) = "0.12" /\
  float_fmt_2f (float_mul (quotient 57 100) (float_of_int 100)) = "57.00" /\
  fmt_2f (PyInt 0) = "0.00".
Proof. by vm_compute. Qed.

(* ===================================================================== *)
(** * Every outcome of the cache code *)
(* ===================================================================== *)

(** The outcome of each function in every world, the unreachable backend
    included. *)

Lemma get_all_properties_run (w : World) :
  get_all_properties w =
  match redis_fault w with
  | Some msg => (Err (ConnectionError msg), w)
  | None =>
      match cache_lookup all_properties w with
      | Some v => (Ok v, after_hit w)
      | None => (Ok (listing (table w)), after_miss w)
      end
  end.
Proof.
  destruct (redis_fault w) as [msg|] eqn:Hf.
  - unfold get_all_properties, mbind, M_bind, cache_get, redis_command.
    by rewrite Hf.
  - destruct (cache_lookup all_properties w) as [v|] eqn:Hv.
    + by apply get_all_properties_hit.
    + by apply get_all_properties_miss.
Qed.

Lemma get_cache_info_run (w : World) :
  get_cache_info w =
  match redis_fault w with
  | Some msg => (Err (ConnectionError msg), w)
  | None =>
      (Ok (match cache_lookup all_properties w with
           | Some v => mk_CacheInfo "all_properties" true (len v) (Some "list")
           | None => mk_CacheInfo "all_properties" false 0 None
           end), w)
  end.
Proof.
  unfold get_cache_info, mbind, M_bind, cache_get, redis_command.
  destruct (redis_fault w); [done|]. fold all_properties.
  by destruct (cache_lookup all_properties w).
Qed.

Lemma get_redis_cache_metrics_world (w : World) :
  exists records, snd (get_redis_cache_metrics w) = with_log (log w ++ records) w.
Proof.
  unfold get_redis_cache_metrics, try_except, mbind, M_bind,
    get_redis_connection, redis_connection_info, redis_command, eval.
  simpl. destruct (redis_fault w); [by eexists|].
  destruct (ratio_percent _ _); [|by eexists].
  destruct (ratio_percent _ _); by eexists.
Qed.

Lemma cache_delete_run (w : World) :
  cache_delete all_properties w =
  match redis_fault w with
  | Some msg => (Err (ConnectionError msg), w)
  | None => (Ok (present w), with_cache (delete all_properties (cache w)) w)
  end.
Proof. unfold cache_delete, redis_command. by destruct (redis_fault w). Qed.

Lemma properties_of_property_list (request : HttpRequest) (w : World) :
  property_list request w =
  match get_all_properties w with
  | (Ok properties, w1) => (Ok (listing_response properties), w1)
  | (Err e, w1) => (Err e, w1)
  end.
Proof.
  unfold property_list, mbind, M_bind.
  destruct (get_all_properties w) as [[ps|e] w1]; [|done].
  rewrite append_records_spec. simpl. unfold listing_response, len.
  by rewrite length_map.
Qed.

Lemma cache_lookup_after_delete lvl msg w dt :
  cache_lookup all_properties (advance dt (after_delete lvl msg w)) = None.
Proof.
  unfold cache_lookup, advance, after_delete. simpl.
  by rewrite lookup_delete_eq.
Qed.

(** X7. The signal handlers, the manual invalidation and the two views
    catch nothing: with the backend unreachable each of them raises the
    client's error to its caller, and nothing is logged or changed. *)
Theorem signals_and_views_propagate (w : World) (msg : string)
    (instance : Property.t) (created : bool) (request : HttpRequest) :
  redis_fault w = Some msg ->
  invalidate_cache_on_property_save instance created w
    = (Err (ConnectionError msg), w) /\
  invalidate_cache_on_property_delete instance w
    = (Err (ConnectionError msg), w) /\
  manual_cache_invalidation w = (Err (ConnectionError msg), w) /\
  property_list request w = (Err (ConnectionError msg), w) /\
  property_list_html request w = (Err (ConnectionError msg), w).
Proof.
  intros Hdown.
  unfold invalidate_cache_on_property_save, invalidate_cache_on_property_delete,
    manual_cache_invalidation, property_list, property_list_html, mbind, M_bind.
  rewrite get_all_properties_run, cache_delete_run, Hdown. done.
Qed.

Lemma signals_and_views_propagate_witness :
  invalidate_cache_on_property_save villa true world_down =
    (Err (ConnectionError
            "Error 111 connecting to localhost:6379. Connection refused."),
     world_down) /\
  property_list get_listing world_down =
    (Err (ConnectionError
            "Error 111 connecting to localhost:6379. Connection refused."),
     world_down).
Proof.
  destruct (signals_and_views_propagate world_down _ villa true get_listing eq_refl)
    as (Hsave & _ & _ & Hview & _).
  split; [exact Hsave|exact Hview].
Defined.

(** X8. The four operations that delete the key differ only in what they
    log: on a reachable backend the two signal handlers, whatever the
    instance and the [created] flag, [invalidate_properties_cache] and
    [manual_cache_invalidation] leave the same world but for the log, the
    key being deleted, and the two functions that return a value return
    the same one. *)
Theorem delete_operations_agree (w : World) (i1 i2 : Property.t) (c1 c2 : bool) :
  redis_fault w = None ->
  without_log (snd (invalidate_cache_on_property_save i1 c1 w))
    = without_log (with_cache (delete all_properties (cache w)) w) /\
  without_log (snd (invalidate_cache_on_property_save i2 c2 w))
    = without_log (snd (invalidate_cache_on_property_save i1 c1 w)) /\
  without_log (snd (invalidate_cache_on_property_delete i1 w))
    = without_log (snd (invalidate_cache_on_property_save i1 c1 w)) /\
  without_log (snd (invalidate_properties_cache w))
    = without_log (snd (invalidate_cache_on_property_save i1 c1 w)) /\
  without_log (snd (manual_cache_invalidation w))
    = without_log (snd (invalidate_cache_on_property_save i1 c1 w)) /\
  fst (manual_cache_invalidation w) = fst (invalidate_properties_cache w).
Proof.
  intros Hup.
  rewrite !(invalidate_cache_on_property_save_up w Hup),
    (invalidate_cache_on_property_delete_up w Hup),
    (invalidate_properties_cache_up w Hup),
    (manual_cache_invalidation_up w Hup).
  by destruct (present w).
Qed.

Lemma delete_operations_agree_witness :
  without_log (snd (invalidate_cache_on_property_save flat false world_stale))
    = without_log (snd (invalidate_cache_on_property_save villa true world_stale)) /\
  fst (manual_cache_invalidation world_stale) = fst (invalidate_properties_cache world_stale).
Proof.
  destruct (delete_operations_agree world_stale villa flat true false eq_refl)
    as (_ & Hsame & _ & _ & _ & Hret).
  split; [exact Hsame|exact Hret].
Defined.

(** X9. [get_cache_info] follows the other functions: right after
    [get_all_properties] it reports the key as present, with the number of
    properties that call returned and the type name [list]; right after
    [invalidate_properties_cache] it reports it absent, with count 0 and
    no type. *)
Theorem cache_info_follows (w : World) :
  redis_fault w = None ->
  exists l w1 removed w2,
    get_all_properties w = (Ok l, w1) /\
    get_cache_info w1 =
      (Ok (mk_CacheInfo "all_properties" true (len l) (Some "list")), w1) /\
    invalidate_properties_cache w1 = (Ok removed, w2) /\
    removed = true /\
    get_cache_info w2 = (Ok (mk_CacheInfo "all_properties" false 0 None), w2).
Proof.
  intros Hup.
  assert (Hmid : exists l w1,
             get_all_properties w = (Ok l, w1) /\ redis_fault w1 = None /\
             cache_lookup all_properties w1 = Some l).
  { rewrite get_all_properties_run, Hup.
    destruct (cache_lookup all_properties w) as [v|] eqn:Hv.
    - exists v, (after_hit w). by split_and!.
    - exists (listing (table w)), (after_miss w). split_and!; [done|done|].
      pose proof (cache_lookup_after_miss w 0) as H0.
      replace (advance 0 (after_miss w)) with (after_miss w) in H0; [done|].
      unfold advance, with_now. simpl. by rewrite Z.add_0_r. }
  destruct Hmid as (l & w1 & Hrun & Hup1 & Hl).
  exists l, w1, true, (snd (invalidate_properties_cache w1)).
  assert (Hp : present w1 = true) by (apply present_true; by rewrite Hl).
  split_and!; try done.
  - by rewrite get_cache_info_run, Hup1, Hl.
  - rewrite (invalidate_properties_cache_up w1 Hup1), Hp. done.
  - rewrite (invalidate_properties_cache_up w1 Hup1), Hp. simpl.
    rewrite get_cache_info_run. simpl. rewrite Hup1.
    pose proof (cache_lookup_after_delete INFO
                  "Successfully invalidated cache for key 'all_properties'" w1 0) as H0.
    unfold advance in H0. simpl in H0. rewrite Z.add_0_r in H0.
    unfold cache_lookup in *. simpl in *. by rewrite lookup_delete_eq.
Qed.

Lemma cache_info_follows_witness :
  exists w1 w2,
    get_all_properties world_three = (Ok [villa; house; flat], w1) /\
    get_cache_info w1 =
      (Ok (mk_CacheInfo "all_properties" true 3 (Some "list")), w1) /\
    invalidate_properties_cache w1 = (Ok true, w2) /\
    get_cache_info w2 = (Ok (mk_CacheInfo "all_properties" false 0 None), w2).
Proof.
  destruct (cache_info_follows world_three eq_refl)
    as (l & w1 & removed & w2 & Hrun & Hinfo & Hinv & -> & Hinfo2).
  assert (Hl : l = [villa; house; flat]).
  { assert (Hcmp : get_all_properties world_three
                   = (Ok [villa; house; flat], after_miss world_three))
      by (vm_compute; reflexivity).
    rewrite Hcmp in Hrun. by injection Hrun as <- _. }
  subst l. exists w1, w2. auto.
Defined.

(** X13. An explicit invalidation forces the next read to the Store: after
    [invalidate_properties_cache] or [manual_cache_invalidation], whatever
    the cache held (a stale listing included) and however long one waits,
    [get_all_properties] runs one query and returns the ordered table. *)
Theorem invalidation_forces_reload (w : World) (dt : Z) :
  redis_fault w = None ->
  (exists removed w1 w2,
     invalidate_properties_cache w = (Ok removed, w1) /\
     get_all_properties (advance dt w1) = (Ok (listing (table w)), w2) /\
     queries w2 = S (queries w)) /\
  (exists removed w1 w2,
     manual_cache_invalidation w = (Ok removed, w1) /\
     get_all_properties (advance dt w1) = (Ok (listing (table w)), w2) /\
     queries w2 = S (queries w)).
Proof.
  intros Hup. split.
  - rewrite (invalidate_properties_cache_up w Hup).
    destruct (present w); eexists _, _, _; (split; [done|]);
      rewrite get_all_properties_run; simpl;
      rewrite Hup, cache_lookup_after_delete; (split; reflexivity).
  - rewrite (manual_cache_invalidation_up w Hup).
    destruct (present w); eexists _, _, _; (split; [done|]);
      rewrite get_all_properties_run; simpl;
      rewrite Hup, cache_lookup_after_delete; (split; reflexivity).
Qed.

Lemma invalidation_forces_reload_witness :
  exists w1 w2,
    manual_cache_invalidation world_stale = (Ok true, w1) /\
    get_all_properties (advance 10 w1) = (Ok [villa; house; flat], w2) /\
    queries w2 = 1%nat.
Proof.
  destruct (invalidation_forces_reload world_stale 10 eq_refl)
    as (_ & removed & w1 & w2 & Hinv & Hrun & Hq).
  assert (Hcmp : manual_cache_invalidation world_stale
                 = (Ok true, snd (manual_cache_invalidation world_stale)))
    by (vm_compute; reflexivity).
  rewrite Hcmp in Hinv. injection Hinv as <- <-.
  eexists _, w2. split_and!; [exact Hcmp|exact Hrun|exact Hq].
Defined.



(* ===================================================================== *)
(** * What the metrics record says *)
(* ===================================================================== *)

Lemma efficiency_label_not_error (v : number) : efficiency_label v <> "Error".
Proof.
  unfold efficiency_label.
  destruct (number_geb v 90); [done|].
  destruct (number_geb v 70); [done|].
  by destruct (number_geb v 50).
Qed.

(** X10. A reply of the backend that lacks both counters is read as no
    traffic at all: the record has 0 hits, 0 misses, a total of 0, both
    ratios the integer 0 and the label ["Poor"], with no error entry; every
    other entry that is missing takes its default (["Unknown"], ["0B"],
    0). *)
Theorem metrics_defaults (w : World) :
  redis_fault w = None ->
  ri_keyspace_hits (redis_info w) = None ->
  ri_keyspace_misses (redis_info w) = None ->
  exists m w1,
    get_redis_cache_metrics w = (Ok m, w1) /\
    keyspace_hits m = 0 /\ keyspace_misses m = 0 /\ total_requests m = 0 /\
    hit_ratio m = PyInt 0 /\ miss_ratio m = PyInt 0 /\
    cache_efficiency m = "Poor" /\ error m = None /\
    redis_version m = default "Unknown" (ri_redis_version (redis_info w)) /\
    used_memory m = default 0 (ri_used_memory (redis_info w)) /\
    used_memory_human m = default "0B" (ri_used_memory_human (redis_info w)) /\
    connected_clients m = default 0 (ri_connected_clients (redis_info w)) /\
    total_commands_processed m
      = default 0 (ri_total_commands_processed (redis_info w)) /\
    instantaneous_ops_per_sec m
      = default 0 (ri_instantaneous_ops_per_sec (redis_info w)).
Proof.
  intros Hup Hh Hm.
  destruct (get_redis_cache_metrics_up w 0 0 Hup) as (w1 & Hrun & _);
    [by rewrite Hh|by rewrite Hm|lia|lia|].
  exists (success_metrics (redis_info w) 0 0), w1. by split_and!.
Qed.

Lemma metrics_defaults_witness :
  exists m w1,
    get_redis_cache_metrics world_three = (Ok m, w1) /\
    total_requests m = 0 /\ hit_ratio m = PyInt 0 /\
    cache_efficiency m = "Poor" /\ error m = None /\
    redis_version m = "Unknown" /\ used_memory_human m = "0B".
Proof.
  destruct (metrics_defaults world_three eq_refl eq_refl eq_refl)
    as (m & w1 & Hrun & _ & _ & Ht & Hh & _ & Hl & He & Hv & _ & Hu & _).
  exists m, w1.
  exact (conj Hrun (conj Ht (conj Hh (conj Hl (conj He (conj Hv Hu)))))).
Defined.

(** X11. In the record [get_redis_cache_metrics] returns, the label
    ["Error"] and the ['error'] entry go together: the label is ["Error"]
    exactly when the entry is there, and the call has then logged one
    record at error severity, and one at info severity otherwise. *)
Theorem error_label_iff_error_entry (w : World) :
  exists m w1,
    get_redis_cache_metrics w = (Ok m, w1) /\
    (cache_efficiency m = "Error" <-> is_Some (error m)) /\
    map levelname (logged w w1)
      = [match error m with Some _ => ERROR | None => INFO end].
Proof.
  assert (Hlog : forall r, logged w (with_log (log w ++ [r]) w) = [r]).
  { intros r. unfold logged. simpl. by rewrite drop_app_length. }
  assert (Herr : forall e l,
             exists m w1,
               (Ok (error_metrics (str_exc e)),
                with_log (log w ++ [mk_LogRecord ERROR l]) w) = (Ok m, w1) /\
               (cache_efficiency m = "Error" <-> is_Some (error m)) /\
               map levelname (logged w w1)
                 = [match error m with Some _ => ERROR | None => INFO end]).
  { intros e l. eexists _, _. split; [done|]. rewrite Hlog. simpl.
    split; [|done]. split; [by eauto|done]. }
  unfold get_redis_cache_metrics, try_except, mbind, M_bind,
    get_redis_connection, redis_connection_info, redis_command, eval.
  simpl. destruct (redis_fault w) as [msg|].
  { exact (Herr (ConnectionError msg) _). }
  destruct (ratio_percent _ _) as [hr|e]; [|exact (Herr e _)].
  destruct (ratio_percent _ _) as [mr|e]; [|exact (Herr e _)].
  eexists _, _. split; [done|]. rewrite Hlog. simpl. split; [|done].
  split.
  - intros Hl. by apply efficiency_label_not_error in Hl.
  - by intros [? ?].
Qed.

(* ===================================================================== *)
(** * What the cache code leaves alone *)
(* ===================================================================== *)

Lemma same_store_refl (w : World) : same_store w w.
Proof. by unfold same_store. Qed.

Lemma same_store_after_delete lvl msg w : same_store w (after_delete lvl msg w).
Proof. by unfold same_store. Qed.

(** X12. The functions of [utils.py] and [signals.py] never write to the
    Store: in every world, reachable backend or not, the rows of the
    table and the key counter come out as they went in.  Only
    [get_all_properties] queries the Store, and at most once;
    [get_cache_info] and [get_redis_cache_metrics] issue no query and
    every key of the cache answers after them as it did before. *)
Theorem cache_code_leaves_store_alone (w : World) (instance : Property.t)
    (created : bool) :
  (same_store w (snd (get_all_properties w)) /\
   (queries w <= queries (snd (get_all_properties w)) <= S (queries w))%nat) /\
  (same_store w (snd (invalidate_properties_cache w)) /\
   queries (snd (invalidate_properties_cache w)) = queries w) /\
  (same_store w (snd (get_cache_info w)) /\
   queries (snd (get_cache_info w)) = queries w /\
   forall key, cache_lookup key (snd (get_cache_info w)) = cache_lookup key w) /\
  (same_store w (snd (get_redis_cache_metrics w)) /\
   queries (snd (get_redis_cache_metrics w)) = queries w /\
   forall key,
     cache_lookup key (snd (get_redis_cache_metrics w)) = cache_lookup key w) /\
  (same_store w (snd (invalidate_cache_on_property_save instance created w)) /\
   queries (snd (invalidate_cache_on_property_save instance created w)) = queries w) /\
  (same_store w (snd (invalidate_cache_on_property_delete instance w)) /\
   queries (snd (invalidate_cache_on_property_delete instance w)) = queries w) /\
  (same_store w (snd (manual_cache_invalidation w)) /\
   queries (snd (manual_cache_invalidation w)) = queries w).
Proof.
  split_and!.
  - rewrite get_all_properties_run.
    destruct (redis_fault w); [apply same_store_refl|].
    by destruct (cache_lookup all_properties w).
  - rewrite get_all_properties_run.
    destruct (redis_fault w); [simpl; lia|].
    destruct (cache_lookup all_properties w); simpl; lia.
  - rewrite get_all_properties_run.
    destruct (redis_fault w); [simpl; lia|].
    destruct (cache_lookup all_properties w); simpl; lia.
  - unfold invalidate_properties_cache, mbind, M_bind.
    cbv zeta. rewrite cache_delete_run.
    destruct (redis_fault w); [apply same_store_refl|]. by destruct (present w).
  - unfold invalidate_properties_cache, mbind, M_bind.
    cbv zeta. rewrite cache_delete_run.
    destruct (redis_fault w); [done|]. by destruct (present w).
  - rewrite get_cache_info_run.
    destruct (redis_fault w); apply same_store_refl.
  - rewrite get_cache_info_run. by destruct (redis_fault w).
  - intros key. rewrite get_cache_info_run. by destruct (redis_fault w).
  - destruct (get_redis_cache_metrics_world w) as (records & ->).
    by unfold same_store.
  - by destruct (get_redis_cache_metrics_world w) as (records & ->).
  - intros key. by destruct (get_redis_cache_metrics_world w) as (records & ->).
  - unfold invalidate_cache_on_property_save, mbind, M_bind.
    cbv zeta. rewrite cache_delete_run.
    destruct (redis_fault w); [apply same_store_refl|]. by destruct (present w).
  - unfold invalidate_cache_on_property_save, mbind, M_bind.
    cbv zeta. rewrite cache_delete_run.
    destruct (redis_fault w); [done|]. by destruct (present w).
  - unfold invalidate_cache_on_property_delete, mbind, M_bind.
    cbv zeta. rewrite cache_delete_run.
    destruct (redis_fault w); [apply same_store_refl|]. by destruct (present w).
  - unfold invalidate_cache_on_property_delete, mbind, M_bind.
    cbv zeta. rewrite cache_delete_run.
    destruct (redis_fault w); [done|]. by destruct (present w).
  - unfold manual_cache_invalidation, mbind, M_bind.
    cbv zeta. rewrite cache_delete_run.
    destruct (redis_fault w); [apply same_store_refl|]. by destruct (present w).
  - unfold manual_cache_invalidation, mbind, M_bind.
    cbv zeta. rewrite cache_delete_run.
    destruct (redis_fault w); [done|]. by destruct (present w).
Qed.

(* ===================================================================== *)
(** * The cache agrees with the Store *)
(* ===================================================================== *)

Lemma coherent_with_log (l : list LogRecord) (w : World) :
  coherent w -> coherent (with_log l w).
Proof. unfold coherent. simpl. auto. Qed.

Lemma delete_operations_world (w : World) (instance : Property.t) (created : bool) :
  let deleted w1 := w1 = w \/ exists lvl msg, w1 = after_delete lvl msg w in
  deleted (snd (invalidate_properties_cache w)) /\
  deleted (snd (manual_cache_invalidation w)) /\
  deleted (snd (invalidate_cache_on_property_save instance created w)) /\
  deleted (snd (invalidate_cache_on_property_delete instance w)).
Proof.
  intros deleted. unfold deleted.
  destruct (redis_fault w) as [msg|] eqn:Hf.
  - unfold invalidate_properties_cache, manual_cache_invalidation,
      invalidate_cache_on_property_save, invalidate_cache_on_property_delete,
      mbind, M_bind, cache_delete, redis_command.
    rewrite Hf. simpl. by split_and!; left.
  - rewrite (invalidate_properties_cache_up w Hf),
      (manual_cache_invalidation_up w Hf),
      (invalidate_cache_on_property_save_up w Hf),
      (invalidate_cache_on_property_delete_up w Hf).
    simpl. destruct (present w); split_and!; right; by eexists _, _.
Qed.

(** X18. Agreement between cache and Store is an invariant of the code:
    if every listing stored under ['all_properties'] is the ordered
    content of the table, it is still so after any function of
    [utils.py] or [signals.py], reachable backend or not; and on a
    reachable backend [get_all_properties] then returns the ordered
    table, from whichever tier. *)
Theorem coherence_is_kept (w : World) (instance : Property.t) (created : bool) :
  coherent w ->
  coherent (snd (get_all_properties w)) /\
  coherent (snd (invalidate_properties_cache w)) /\
  coherent (snd (get_cache_info w)) /\
  coherent (snd (get_redis_cache_metrics w)) /\
  coherent (snd (invalidate_cache_on_property_save instance created w)) /\
  coherent (snd (invalidate_cache_on_property_delete instance w)) /\
  coherent (snd (manual_cache_invalidation w)) /\
  (redis_fault w = None ->
   fst (get_all_properties w) = Ok (listing (table w))).
Proof.
  intros Hco.
  assert (Hdel : forall w1,
             w1 = w \/ (exists lvl msg, w1 = after_delete lvl msg w) ->
             coherent w1).
  { intros w1 [->|(lvl & msg & ->)]; [done|apply coherent_after_delete]. }
  destruct (delete_operations_world w instance created)
    as (Hinv & Hman & Hsave & Hdelete).
  split_and!; auto.
  - rewrite get_all_properties_run. destruct (redis_fault w); [done|].
    destruct (cache_lookup all_properties w); simpl;
      auto using coherent_after_hit, coherent_after_miss.
  - rewrite get_cache_info_run. by destruct (redis_fault w).
  - destruct (get_redis_cache_metrics_world w) as (records & ->).
    by apply coherent_with_log.
  - intros Hup.
    destruct (get_all_properties_coherent w Hup Hco) as (w' & -> & _). done.
Qed.

Lemma coherence_is_kept_witness :
  coherent (snd (get_all_properties world_three)) /\
  coherent (snd (get_redis_cache_metrics world_three)) /\
  fst (get_all_properties world_three) = Ok [villa; house; flat].
Proof.
  destruct (coherence_is_kept world_three villa true
              (coherent_absent world_three eq_refl))
    as (Hget & _ & _ & Hmet & _ & _ & _ & Hread).
  split_and!; [exact Hget|exact Hmet|exact (Hread eq_refl)].
Defined.

(* ===================================================================== *)
(** * The two views *)
(* ===================================================================== *)

(** X16. The two views read the listing through the same call: in every
    world the list handed to the template is the list the JSON view
    serializes, with the flag [cached_view] set, both leave the same world
    behind, and when one raises so does the other, with the same error. *)
Theorem views_share_listing (request_html request_json : HttpRequest) (w : World) :
  match property_list_html request_html w with
  | (Ok context, w1) =>
      ctx_cached_view context = true /\
      get_all_properties w = (Ok (ctx_properties context), w1) /\
      property_list request_json w
        = (Ok (listing_response (ctx_properties context)), w1)
  | (Err e, w1) => property_list request_json w = (Err e, w1)
  end.
Proof.
  rewrite properties_of_property_list.
  unfold property_list_html, mbind, M_bind.
  by destruct (get_all_properties w) as [[ps|e] w1].
Qed.

(** X19. When the cache agrees with the Store, the JSON view lists the
    rows of the table, newest first, and its [count] is the number of
    rows in the table. *)
Theorem property_list_counts_rows (request : HttpRequest) (w : World) :
  redis_fault w = None ->
  coherent w ->
  exists w1,
    property_list request w =
      (Ok (mk_JsonResponse 200 "application/json"
             (JObj [("properties", JArr (map property_record (listing (table w))));
                    ("count", JNum (len (table w)));
                    ("cached", JBool true)])), w1) /\
    table w1 = table w.
Proof.
  intros Hup Hco.
  destruct (get_all_properties_coherent w Hup Hco) as (w1 & Hrun & _ & _ & Htab).
  exists w1. rewrite properties_of_property_list, Hrun.
  split; [|done]. unfold listing_response, JsonResponse_of, len.
  by rewrite (Permutation_length (select_ordered_perm (table w))).
Qed.

Lemma property_list_counts_rows_witness :
  exists w1 items,
    property_list get_listing world_three =
      (Ok (mk_JsonResponse 200 "application/json"
             (JObj [("properties", JArr items);
                    ("count", JNum 3);
                    ("cached", JBool true)])), w1) /\
    items = map property_record [villa; house; flat].
Proof.
  destruct (property_list_counts_rows get_listing world_three eq_refl
              (coherent_absent world_three eq_refl)) as (w1 & Hrun & _).
  exists w1, (map property_record (listing (table world_three))).
  split; [exact Hrun|reflexivity].
Defined.

(* ===================================================================== *)
(** * The response tier *)
(* ===================================================================== *)

















Section Replay.

Variable request : HttpRequest.
Variable e : PageEntry.





End Replay.

(** A [GET] of the decorated view on a reachable backend: the stored
    response, or the view's response, which is then stored for 900
    seconds. *)
Lemma cached_property_list_get (request : HttpRequest) (s : Site) :
  req_method request = "GET" ->
  redis_fault (world s) = None ->
  cached_property_list request s =
  match page_lookup "GET" request s with
  | Some response => (Ok response, s)
  | None =>
      match get_all_properties (world s) with
      | (Ok properties, w') =>
          (Ok (listing_response properties),
           mk_Site w'
             (<[page_key "GET" request :=
                  mk_PageEntry (listing_response properties) (now w' + 900)]>
                (delete "all_properties" (pages s))))
      | (Err e, w') => (Err e, mk_Site w' (delete "all_properties" (pages s)))
      end
  end.
Proof.
  intros Hget Hup. unfold cached_property_list, cache_page, in_world.
  rewrite Hget, Hup. simpl.
  destruct (page_lookup "GET" request s); [done|].
  rewrite properties_of_property_list.
  by destruct (get_all_properties (world s)) as [[ps|e] w'].
Qed.



(** X15. The two tiers expire apart.  When a first [GET] has filled both,
    a [GET] of the same request more than 900 and at most 3600 seconds
    later finds its response expired and runs the view again, which is
    served by ['all_properties']: the same response is built without a
    query to the Store, and is stored for another 900 seconds. *)
Theorem expired_page_rebuilt_from_listing (request : HttpRequest) (s : Site)
    (dt : Z) :
  redis_fault (world s) = None ->
  req_method request = "GET" ->
  page_lookup "GET" request s = None ->
  cache_lookup all_properties (world s) = None ->
  900 < dt <= 3600 ->
  exists response s1 s2,
    cached_property_list request s = (Ok response, s1) /\
    response = listing_response (listing (table (world s))) /\
    queries (world s1) = S (queries (world s)) /\
    page_lookup "GET" request (advance_site dt s1) = None /\
    cached_property_list request (advance_site dt s1) = (Ok response, s2) /\
    queries (world s2) = queries (world s1) /\
    pages s2 !! page_key "GET" request
      = Some (mk_PageEntry response (now (world s) + dt + 900)).
Proof.
  intros Hup Hget Hpage Hmiss Hdt.
  set (response := listing_response (listing (table (world s)))).
  set (s1 := mk_Site (after_miss (world s))
               (<[page_key "GET" request :=
                    mk_PageEntry response (now (world s) + 900)]>
                  (delete "all_properties" (pages s)))).
  assert (Hgone : page_lookup "GET" request (advance_site dt s1) = None).
  { unfold page_lookup, advance_site, s1. simpl. rewrite lookup_insert_eq. simpl.
    by destruct (Z.leb_spec (now (world s) + dt) (now (world s) + 900)); [lia|]. }
  assert (Hhit : cache_lookup all_properties (world (advance_site dt s1))
                 = Some (listing (table (world s)))).
  { unfold advance_site, s1. simpl. rewrite cache_lookup_after_miss.
    by destruct (Z.leb_spec dt 3600); [|lia]. }
  exists response, s1. eexists. split_and!.
  - rewrite (cached_property_list_get request s Hget Hup), Hpage.
    by rewrite get_all_properties_run, Hup, Hmiss.
  - done.
  - done.
  - done.
  - rewrite (cached_property_list_get request (advance_site dt s1) Hget Hup), Hgone.
    rewrite get_all_properties_run. simpl. rewrite Hup.
    unfold advance_site, s1 in Hhit. simpl in Hhit. rewrite Hhit. done.
  - done.
  - simpl. by rewrite lookup_insert_eq.
Qed.

Lemma expired_page_rebuilt_from_listing_witness :
  exists response s1 s2,
    cached_property_list get_listing site_three = (Ok response, s1) /\
    queries (world s1) = 1%nat /\
    cached_property_list get_listing (advance_site 901 s1) = (Ok response, s2) /\
    queries (world s2) = 1%nat.
Proof.
  destruct (expired_page_rebuilt_from_listing get_listing site_three 901
              eq_refl eq_refl eq_refl eq_refl ltac:(lia))
    as (response & s1 & s2 & H1 & _ & Hq1 & _ & H2 & Hq2 & _).
  exists response, s1, s2. rewrite Hq2, Hq1. auto.
Defined.

(* ===================================================================== *)
(** * A write between the query and [cache.set] *)
(* ===================================================================== *)

(** The two halves are the miss branch: run one after the other on a miss
    they are [get_all_properties]. *)
Lemma get_all_properties_steps (w : World) :
  get_all_properties w =
  (cached ← cache_get all_properties;
   match cached with
   | Some cached_properties =>
       _ ← logger_info
             "Cache HIT for key 'all_properties' - returning cached properties";
       mret cached_properties
   | None => properties_list ← load_from_store; store_in_cache properties_list
   end) w.
Proof.
  unfold get_all_properties, load_from_store, store_in_cache, mbind, M_bind,
    all_properties.
  by destruct (cache_get "all_properties" w) as [[[v|]|e] w1].
Qed.

(** X20. Nothing ties [cache.set] to the query before it.  When a reader
    has missed and loaded the listing, and the Store is then written and
    ['all_properties'] deleted before the reader goes on, the reader still
    stores and returns the listing it loaded; that listing is then served,
    without a query, for up to 3600 seconds, whatever the table holds. *)
Theorem lost_invalidation (w : World) :
  redis_fault w = None ->
  cache_lookup all_properties w = None ->
  exists w1,
    cache_get all_properties w = (Ok None, w) /\
    load_from_store w = (Ok (listing (table w)), w1) /\
    forall w2,
      redis_fault w2 = None ->
      exists w3,
        store_in_cache (listing (table w)) w2 = (Ok (listing (table w)), w3) /\
        table w3 = table w2 /\
        forall dt, 0 <= dt < 3600 ->
          exists w4,
            get_all_properties (advance dt w3) = (Ok (listing (table w)), w4) /\
            queries w4 = queries w3.
Proof.
  intros Hup Hmiss. exists (snd (load_from_store w)). split_and!.
  - by rewrite (cache_get_up w Hup), Hmiss.
  - unfold load_from_store, mbind, M_bind, logger_info, logger_emit, list_queryset.
    reflexivity.
  - intros w2 Hup2.
    unfold store_in_cache, mbind, M_bind. cbv zeta.
    rewrite (cache_set_up w2 Hup2). simpl.
    eexists. split_and!; [reflexivity|done|].
    intros dt Hdt. eexists.
    rewrite get_all_properties_run. simpl. rewrite Hup2.
    unfold cache_lookup, live. simpl. rewrite lookup_insert_eq. simpl.
    destruct (Z.leb_spec (now w2 + dt) (now w2 + 3600)); [|lia].
    split; reflexivity.
Qed.

Lemma lost_invalidation_witness :
  exists w1 w2 w3 w4,
    load_from_store world_three = (Ok [villa; house; flat], w1) /\
    Property_objects_create "Cottage" "By the lake" (mk_Decimal false 4500000 (-2))
      "Naivasha" (utc 2024 4 2 9 0 0) w1 = (Ok cottage, w2) /\
    store_in_cache [villa; house; flat] w2 = (Ok [villa; house; flat], w3) /\
    table w3 = [house; flat; villa; cottage] /\
    get_all_properties (advance 60 w3) = (Ok [villa; house; flat], w4) /\
    queries w4 = queries w3.
Proof.
  destruct (lost_invalidation world_three eq_refl eq_refl)
    as (w1 & _ & Hload & Hrest).
  pose (w2 := snd (Property_objects_create "Cottage" "By the lake"
                     (mk_Decimal false 4500000 (-2)) "Naivasha"
                     (utc 2024 4 2 9 0 0) w1)).
  assert (Hw1 : w1 = snd (load_from_store world_three)) by (by rewrite Hload).
  destruct (Hrest w2) as (w3 & Hstore & Htab & Hnext).
  { subst w2 w1. vm_compute. reflexivity. }
  destruct (Hnext 60 ltac:(lia)) as (w4 & Hread & Hq).
  exists w1, w2, w3, w4. split_and!; try done.
  - subst w2 w1. vm_compute. reflexivity.
  - rewrite Htab. subst w2 w1. vm_compute. reflexivity.
Defined.
